(** * CreateCustomFolder: the legend parser and the folder namer

    A shallow embedding of [read_legend], of the name computed by
    [create_folder] and of the form and its button (CreateCustomFolder.py),
    with the properties the specification states about them and further
    properties read off the code.

    Python strings are modelled by [string]; a character is a code point
    below 256.  A [DataFrame] is the frame [pd.read_excel] hands to the
    parser after [reset_index]: rows are numbered from 0 and columns are
    addressed by position (column labels are unique, so a label and its
    position determine each other). *)

From Stdlib Require Import String Ascii List Arith Bool Lia DecimalString.
Import ListNotations.
Local Open Scope string_scope.
Local Open Scope list_scope.
Local Open Scope nat_scope.

(** ** Strings *)

Module PyStr.

(** [str.isspace] on the code points below 256. *)
Definition is_space (c : ascii) : bool :=
  let n := nat_of_ascii c in
  ((9 <=? n) && (n <=? 13)) || ((28 <=? n) && (n <=? 32))
  || (n =? 133) || (n =? 160).

Fixpoint lstrip (s : string) : string :=
  match s with
  | EmptyString => EmptyString
  | String c s' => if is_space c then lstrip s' else s
  end.

Fixpoint rstrip (s : string) : string :=
  match s with
  | EmptyString => EmptyString
  | String c s' =>
      match rstrip s' with
      | EmptyString => if is_space c then EmptyString else String c EmptyString
      | t => String c t
      end
  end.

(** [s.strip()] *)
Definition strip (s : string) : string := rstrip (lstrip s).

(** [sep.join(xs)] *)
Fixpoint join (sep : string) (xs : list string) : string :=
  match xs with
  | [] => ""
  | [x] => x
  | x :: rest => x ++ sep ++ join sep rest
  end.

(** [str(i)] for a non-negative integer. *)
Definition of_nat (i : nat) : string :=
  NilEmpty.string_of_uint (Nat.to_uint i).

End PyStr.

(** ** Configuration *)

Definition TARGET_WITH_ABBREVIATION : list string :=
  ["Frame Version"; "Core Version"; "Gasket Version"; "Pump"].
Definition SECOND_BLANK_STOP : list string :=
  ["Frame Version"; "Core Version"; "Gasket Version"].
Definition FIRST_BLANK_STOP : list string :=
  ["Device Name"; "Coolant"; "Pump"].
Definition TARGET_WITHOUT_ABBREVIATION : list string :=
  ["Device Name"; "Coolant"].
Definition SKIP : list string :=
  ["OCCT Version"; "OCCT Test Setting"; "Fan Settings"; "CPU model"].

(** [s in xs] for a set of strings. *)
Definition mem (s : string) (xs : list string) : bool :=
  existsb (String.eqb s) xs.

(** ** Cells and frames *)

(** A cell of the frame: missing ([NaN]), a [str], or any other scalar
    (a number, a boolean, a timestamp), which the parser only ever looks
    at through [str(v)]; [COther] carries that text. *)
Inductive cell : Type :=
| CNaN
| CStr (s : string)
| COther (repr : string).

Record DataFrame : Type := mkFrame {
  ncols : nat;               (* df.shape[1] *)
  rows : list (list cell)    (* the rows, in index order *)
}.

(** [len(df)] *)
Definition nrows (df : DataFrame) : nat := length (rows df).

(** [df.loc[i].tolist()] *)
Definition row_values (df : DataFrame) (i : nat) : list cell :=
  nth i (rows df) [].

(** [df.at[i, col]] *)
Definition at_ (df : DataFrame) (i col : nat) : cell :=
  nth col (row_values df i) CNaN.

(** [pd.isna(v)] *)
Definition isna (v : cell) : bool :=
  match v with CNaN => true | _ => false end.

(** [str(v)] for a cell that is not missing. *)
Definition str (v : cell) : string :=
  match v with
  | CNaN => "nan"
  | CStr s => s
  | COther r => r
  end.

(** [str(cell).strip() if pd.notna(cell) else ""] *)
Definition cell_str (v : cell) : string :=
  if isna v then "" else PyStr.strip (str v).

(** [pd.isna(v) or str(v).strip() == ""] *)
Definition is_blank (v : cell) : bool :=
  isna v || (PyStr.strip (str v) =? "")%string.

(** [v != "?"]: only a [str] can be equal to a [str]. *)
Definition not_qmark (v : cell) : bool :=
  match v with
  | CStr s => negb (s =? "?")%string
  | _ => true
  end.

(** [isinstance(v, str) and v.strip() in candidates] *)
Definition candidates : list string := ["Abbreviation"; "Abbrevation"].

Definition is_abbrev_header (v : cell) : bool :=
  match v with
  | CStr s => mem (PyStr.strip s) candidates
  | _ => false
  end.

(** [next((idx for idx, v in enumerate(row_values) if ...), None)] *)
Fixpoint first_index {A : Type} (p : A -> bool) (xs : list A) : option nat :=
  match xs with
  | [] => None
  | x :: rest =>
      if p x then Some 0 else option_map S (first_index p rest)
  end.

Definition abbrev_index (row : list cell) : option nat :=
  first_index is_abbrev_header row.

(** ** Results and errors *)

(** [results: dict[str, list[str]]], in insertion order. *)
Definition legend : Type := list (string * list string).

(** [results[k] = v]: an existing key keeps its place and takes the new
    value, a new key goes last. *)
Fixpoint dict_set (k : string) (v : list string) (d : legend) : legend :=
  match d with
  | [] => [(k, v)]
  | (k', v') :: d' =>
      if (k' =? k)%string then (k, v) :: d' else (k', v') :: dict_set k v d'
  end.

(** [results.get(k)] *)
Fixpoint dict_get (k : string) (d : legend) : option (list string) :=
  match d with
  | [] => None
  | (k', v') :: d' => if (k' =? k)%string then Some v' else dict_get k d'
  end.

Definition keys (d : legend) : list string := map fst d.

(** What a call does: it returns a value or raises [ValueError(msg)]. *)
Inductive outcome (A : Type) : Type :=
| Returned (a : A)
| Raised (msg : string).
Arguments Returned {A} a.
Arguments Raised {A} msg.

Definition msg_two_columns : string :=
  "Sheet must have at least two columns (A and B).".

Definition msg_no_abbreviation (i : nat) : string :=
  "No 'Abbreviation' column found in row " ++ PyStr.of_nat i ++ ".".

(** ** read_legend *)

(** The block under [# choose column]: the column the values of the
    category found in row [i] are read from. *)
Definition choose_column (df : DataFrame) (i : nat) (current_cat : string)
  : outcome nat :=
  if mem current_cat TARGET_WITH_ABBREVIATION then
    match abbrev_index (row_values df i) with
    | None => Raised (msg_no_abbreviation i)
    | Some idx => Returned idx
    end
  else Returned 1.

(** The inner loop [while j < n].  [k] is the number of rows left,
    [n - j]: the loop runs while it is not zero, and each turn that does
    not break ends with [j += 1].  The result is [(vals, j)] at the exit. *)
Fixpoint inner_loop (df : DataFrame) (current_cat : string) (use_col : nat)
    (k : nat) (vals : list string) (blank_seen j : nat)
  : list string * nat :=
  match k with
  | 0 => (vals, j)
  | S k' =>
      let v := at_ df j use_col in
      if is_blank v then
        let blank_seen := blank_seen + 1 in
        if ((blank_seen =? 2) && mem current_cat SECOND_BLANK_STOP)
           || mem current_cat FIRST_BLANK_STOP
        then (vals, j)
        else inner_loop df current_cat use_col k' vals blank_seen (j + 1)
      else
        let vals :=
          if not_qmark v then vals ++ [PyStr.strip (str v)] else vals in
        inner_loop df current_cat use_col k' vals blank_seen (j + 1)
  end.

(** [vals, blank_seen, j = [], 0, i + 1] followed by the inner loop. *)
Definition scan_run (df : DataFrame) (current_cat : string) (use_col i : nat)
  : list string * nat :=
  inner_loop df current_cat use_col (nrows df - (i + 1)) [] 0 (i + 1).

(** One turn of the outer loop at row [i < n]: the new cursor and the
    new mapping, or the error raised. *)
Definition outer_body (df : DataFrame) (i : nat) (results : legend)
  : outcome (nat * legend) :=
  let cell_str := cell_str (at_ df i 1) in
  if mem cell_str (TARGET_WITH_ABBREVIATION ++ TARGET_WITHOUT_ABBREVIATION)
  then
    let current_cat := cell_str in
    match choose_column df i current_cat with
    | Raised msg => Raised msg
    | Returned use_col =>
        let '(vals, j) := scan_run df current_cat use_col i in
        Returned (j, dict_set current_cat vals results)
    end
  else if mem cell_str SKIP then Returned (i + 1, results)
  else Returned (i + 1, results).

(** The outer loop [while i < n], with a bound on the number of turns;
    [None] when the bound is used up before the loop ends. *)
Fixpoint outer_loop (fuel : nat) (df : DataFrame) (i : nat)
    (results : legend) : option (outcome legend) :=
  if i <? nrows df then
    match fuel with
    | 0 => None
    | S fuel' =>
        match outer_body df i results with
        | Raised msg => Some (Raised msg)
        | Returned (i', results') => outer_loop fuel' df i' results'
        end
    end
  else Some (Returned results).

Definition read_legend_fuel (fuel : nat) (df : DataFrame)
  : option (outcome legend) :=
  if ncols df <? 2 then Some (Raised msg_two_columns)
  else outer_loop fuel df 0 [].

(** [read_legend] on the frame read from the sheet; one turn of the outer
    loop per row is enough, as the termination theorem shows. *)
Definition read_legend (df : DataFrame) : option (outcome legend) :=
  read_legend_fuel (nrows df) df.

(** ** read_legend, from the call on *)

(** The exceptions of a call: [PermissionError], the [ValueError] the
    parser raises itself, or any other exception, by its text. *)
Inductive exn : Type :=
| PermissionError (text : string)
| ValueError (msg : string)
| OtherError (text : string).

(** What a step that can raise comes to. *)
Inductive tried (A : Type) : Type :=
| Gave (a : A)
| Threw (e : exn).
Arguments Gave {A} a.
Arguments Threw {A} e.

(** The [try] at the head of [read_legend].  [first] is what
    [pd.read_excel(excel_path, ...)] comes to, [fallback] what the body
    of the handler ([open], [f.read()], [pd.read_excel] on the bytes)
    comes to when it is run: only a [PermissionError] of the first read
    is caught, and nothing the handler raises is. *)
Definition read_sheet (first fallback : tried DataFrame) : tried DataFrame :=
  match first with
  | Threw (PermissionError _) => fallback
  | _ => first
  end.

(** The whole call: the read of the sheet, then the parse of the frame
    read; an exception of the read goes through to the caller. *)
Definition read_legend_call (first fallback : tried DataFrame)
  : option (tried legend) :=
  match read_sheet first fallback with
  | Threw e => Some (Threw e)
  | Gave df =>
      match read_legend df with
      | None => None
      | Some (Returned m) => Some (Gave m)
      | Some (Raised msg) => Some (Threw (ValueError msg))
      end
  end.

(** ** create_folder *)

(** ["_".join(selections + [time_str.strip(), server_str.strip()])] *)
Definition folder_name (selections : list string) (time_str server_str : string)
  : string :=
  PyStr.join "_" (selections ++ [PyStr.strip time_str; PyStr.strip server_str]).

(** ** The form *)

(** [OPTIONS = {}], then [OPTIONS = read_legend(excel_source)] under
    [try], with [st.error(f"Failed to read legend: {e}")] on an
    exception: the options the page works with and the error it shows. *)
Definition load_options (parsed : outcome legend) : legend * option string :=
  match parsed with
  | Returned m => (m, None)
  | Raised msg => ([], Some ("Failed to read legend: " ++ msg)%string)
  end.

(** [selections: dict[str, str]], in insertion order, and
    [selections[k] = v]. *)
Definition choices : Type := list (string * string).

Fixpoint choices_set (k v : string) (d : choices) : choices :=
  match d with
  | [] => [(k, v)]
  | (k', v') :: d' =>
      if (k' =? k)%string then (k, v) :: d' else (k', v') :: choices_set k v d'
  end.

(** [st.selectbox(label, options)]: the option at the position the user
    picked, position 0 until they pick. *)
Definition selectbox (options : list string) (pick : nat) : string :=
  nth pick options "".

(** [for label in OPTIONS: selections[label] = st.selectbox(label,
    [""] + OPTIONS[label], key=label)]; [picks] gives the position the
    user picked in the selector of each label. *)
Definition form_selections (OPTIONS : legend) (picks : string -> nat)
  : choices :=
  fold_left
    (fun selections entry =>
       let label := fst entry in
       choices_set label (selectbox ("" :: snd entry) (picks label)) selections)
    OPTIONS [].

(** What a press of the Create Folder button leads to: the warning, or
    the call of [create_folder], recorded by the name it builds. *)
Inductive click : Type :=
| Warning (msg : string)
| CreateFolder (name : string).

(** The body of [if st.button("Create Folder")]. *)
Definition create_clicked (selections : choices) (time_input server_input : string)
  : click :=
  let values := map snd selections in
  if mem "" values
     || (PyStr.strip time_input =? "")%string
     || (PyStr.strip server_input =? "")%string
  then Warning "Please complete all selections, time, and server fields."
  else CreateFolder (folder_name values time_input server_input).

(** A run of the page in which the button is pressed, from the outcome
    of [read_legend] on: [None] when [OPTIONS] is empty, where the page
    has no form and no button. *)
Definition page_click (parsed : outcome legend) (picks : string -> nat)
    (time_input server_input : string) : option click :=
  match fst (load_options parsed) with
  | [] => None
  | OPTIONS =>
      Some (create_clicked (form_selections OPTIONS picks)
              time_input server_input)
  end.

(** ** Vocabulary of the properties *)

(** The cells of column [c], in row order. *)
Definition column (df : DataFrame) (c : nat) : list cell :=
  map (fun r => nth c r CNaN) (rows df).

(** The key column is the second one. *)
Definition key_column (df : DataFrame) : list cell := column df 1.

(** The cells of column [c] below row [i]. *)
Definition cells_below (df : DataFrame) (c i : nat) : list cell :=
  skipn (i + 1) (column df c).

(** What the inner loop keeps of a stretch of cells: the text, trimmed,
    of the cells that are not blank and not equal to ["?"]. *)
Definition kept (cells : list cell) : list string :=
  map (fun v => PyStr.strip (str v))
      (filter (fun v => negb (is_blank v) && not_qmark v) cells).

Definition count_blank (cells : list cell) : nat :=
  length (filter is_blank cells).

Definition is_target (s : string) : bool :=
  mem s (TARGET_WITH_ABBREVIATION ++ TARGET_WITHOUT_ABBREVIATION).

(** The inner loop, on the list of the cells still to be read. *)
Fixpoint scan_cells (current_cat : string) (cells : list cell)
    (vals : list string) (blank_seen j : nat) : list string * nat :=
  match cells with
  | [] => (vals, j)
  | v :: rest =>
      if is_blank v then
        if ((blank_seen + 1 =? 2) && mem current_cat SECOND_BLANK_STOP)
           || mem current_cat FIRST_BLANK_STOP
        then (vals, j)
        else scan_cells current_cat rest vals (blank_seen + 1) (j + 1)
      else
        scan_cells current_cat rest
          (if not_qmark v then vals ++ [PyStr.strip (str v)] else vals)
          blank_seen (j + 1)
  end.

(** A [str] cell that reads [t] once trimmed. *)
Definition reads (t : string) (v : cell) : Prop :=
  exists s, v = CStr s /\ PyStr.strip s = t.

Definition reads_abbreviation (v : cell) : Prop :=
  reads "Abbreviation" v \/ reads "Abbrevation" v.

(** The states [(i, results)] the outer loop of [read_legend] passes
    through at the head of a turn, from [(0, {})] on. *)
Inductive loop_state (df : DataFrame) : nat -> legend -> Prop :=
| loop_start : loop_state df 0 []
| loop_turn i results i' results' :
    loop_state df i results ->
    i < nrows df ->
    outer_body df i results = Returned (i', results') ->
    loop_state df i' results'.

(** Row [i] is one the outer loop stops on and reads as the marker of
    category [cat]. *)
Definition marker_row (df : DataFrame) (i : nat) (cat : string) : Prop :=
  (exists results, loop_state df i results)
  /\ i < nrows df
  /\ cell_str (at_ df i 1) = cat
  /\ is_target cat = true.

(** A string with no white space in front. *)
Definition no_lead (s : string) : Prop :=
  match s with
  | EmptyString => True
  | String c _ => PyStr.is_space c = false
  end.

(** The option the selector of entry [e] of [OPTIONS] shows as picked. *)
Definition chosen (picks : string -> nat) (e : string * list string) : string :=
  selectbox ("" :: snd e) (picks (fst e)).

(** Every selector is on one of the options of its category, none on
    the placeholder in front. *)
Definition complete (OPTIONS : legend) (picks : string -> nat) : bool :=
  forallb (fun e => (1 <=? picks (fst e)) && (picks (fst e) <=? length (snd e)))
          OPTIONS.

(** ** Proof steps *)

Ltac split_all := repeat match goal with |- _ /\ _ => split end.

(** * Properties *)

(** ** Columns and runs *)

Lemma column_length df c : length (column df c) = nrows df.
Proof. unfold column, nrows. apply length_map. Qed.

Lemma at_column df j c : at_ df j c = nth j (column df c) CNaN.
Proof.
  unfold at_, row_values, column.
  destruct (Nat.lt_ge_cases j (length (rows df))) as [Hlt | Hge].
  - rewrite (nth_indep (map _ _) CNaN (nth c [] CNaN) (n := j))
      by (rewrite length_map; exact Hlt).
    rewrite (map_nth (fun r => nth c r CNaN)). reflexivity.
  - rewrite (nth_overflow (rows df)) by exact Hge.
    rewrite (nth_overflow (map _ _)) by (rewrite length_map; exact Hge).
    destruct c; reflexivity.
Qed.

Lemma skipn_cons_nth {A : Type} (d : A) (l : list A) (j : nat) :
  j < length l -> skipn j l = nth j l d :: skipn (j + 1) l.
Proof.
  revert j. induction l as [| x l IH]; intros j Hj; simpl in Hj.
  - lia.
  - destruct j as [| j]; simpl.
    + reflexivity.
    + apply IH. lia.
Qed.

Lemma inner_loop_cells df cat c k : forall vals b j,
  j + k = nrows df ->
  inner_loop df cat c k vals b j
  = scan_cells cat (skipn j (column df c)) vals b j.
Proof.
  induction k as [| k IH]; intros vals b j Hk.
  - rewrite skipn_all2 by (rewrite column_length; lia). reflexivity.
  - rewrite (skipn_cons_nth CNaN) by (rewrite column_length; lia).
    rewrite <- at_column. cbn [inner_loop scan_cells].
    rewrite !IH by lia. reflexivity.
Qed.

Lemma scan_run_cells df cat c i :
  i < nrows df ->
  scan_run df cat c i = scan_cells cat (cells_below df c i) [] 0 (i + 1).
Proof.
  intros Hi. unfold scan_run, cells_below. apply inner_loop_cells. lia.
Qed.

(** ** The category sets *)

Lemma mem_In s xs : mem s xs = true <-> In s xs.
Proof.
  unfold mem. rewrite existsb_exists. split.
  - intros [x [Hin Heq]]. apply String.eqb_eq in Heq. subst x. exact Hin.
  - intros Hin. exists s. split; [exact Hin | apply String.eqb_refl].
Qed.

Ltac each_member H :=
  apply mem_In in H; simpl in H;
  repeat (destruct H as [H | H]; [subst; try reflexivity |]);
  try contradiction.

Lemma first_stop_is_target cat :
  mem cat FIRST_BLANK_STOP = true -> is_target cat = true.
Proof. intros H. each_member H. Qed.

Lemma second_stop_is_target cat :
  mem cat SECOND_BLANK_STOP = true -> is_target cat = true.
Proof. intros H. each_member H. Qed.

Lemma second_stop_not_first cat :
  mem cat SECOND_BLANK_STOP = true -> mem cat FIRST_BLANK_STOP = false.
Proof. intros H. each_member H. Qed.

Lemma target_stop_policy cat :
  is_target cat = true ->
  mem cat FIRST_BLANK_STOP = negb (mem cat SECOND_BLANK_STOP).
Proof. unfold is_target. intros H. each_member H. Qed.

(** ** What a run collects *)

Lemma kept_cons v cells :
  kept (v :: cells)
  = (if negb (is_blank v) && not_qmark v then [PyStr.strip (str v)] else [])
    ++ kept cells.
Proof.
  unfold kept. simpl.
  destruct (negb (is_blank v) && not_qmark v); reflexivity.
Qed.

Lemma count_blank_cons v cells :
  count_blank (v :: cells)
  = (if is_blank v then 1 else 0) + count_blank cells.
Proof. unfold count_blank. simpl. destruct (is_blank v); reflexivity. Qed.

(** A run of a first-blank-stop category ends on the first blank cell. *)
Lemma scan_cells_first cat :
  mem cat FIRST_BLANK_STOP = true ->
  forall cells vals b j,
  exists m,
    scan_cells cat cells vals b j = (vals ++ kept (firstn m cells), j + m)
    /\ m <= length cells
    /\ Forall (fun v => is_blank v = false) (firstn m cells)
    /\ (m < length cells -> is_blank (nth m cells CNaN) = true).
Proof.
  intros Hcat. induction cells as [| v rest IH]; intros vals b j.
  - exists 0. simpl. rewrite app_nil_r, Nat.add_0_r.
    split_all; [reflexivity | lia | constructor | lia].
  - cbn [scan_cells]. rewrite Hcat, orb_true_r.
    destruct (is_blank v) eqn:Hv.
    + exists 0. cbn [firstn kept filter map nth length].
      rewrite app_nil_r, Nat.add_0_r.
      split_all; [reflexivity | lia | constructor | intros _; exact Hv].
    + destruct (IH (if not_qmark v then vals ++ [PyStr.strip (str v)] else vals)
                   b (j + 1)) as [m [Hrun [Hle [Hnb Hstop]]]].
      exists (S m). rewrite Hrun. cbn [firstn]. rewrite kept_cons, Hv.
      cbn [negb andb length nth].
      split_all.
      * f_equal; [| lia].
        destruct (not_qmark v); [rewrite <- app_assoc |]; reflexivity.
      * lia.
      * constructor; assumption.
      * intros Hlt. apply Hstop. lia.
Qed.

(** A run of a second-blank-stop category ends on the cell that brings
    the number of blank cells read to two. *)
Lemma scan_cells_second cat :
  mem cat SECOND_BLANK_STOP = true ->
  forall cells vals b j, b <= 1 ->
  exists m,
    scan_cells cat cells vals b j = (vals ++ kept (firstn m cells), j + m)
    /\ m <= length cells
    /\ (m < length cells ->
        is_blank (nth m cells CNaN) = true
        /\ b + count_blank (firstn m cells) = 1)
    /\ (m = length cells -> b + count_blank cells <= 1).
Proof.
  intros Hcat. pose proof (second_stop_not_first cat Hcat) as Hnf.
  induction cells as [| v rest IH]; intros vals b j Hb.
  - exists 0. cbn [firstn kept filter map nth length].
    rewrite app_nil_r, Nat.add_0_r.
    split_all; [reflexivity | lia | intros H; inversion H |].
    intros _. unfold count_blank. simpl. lia.
  - cbn [scan_cells]. rewrite Hcat, Hnf, andb_true_r, orb_false_r.
    destruct (is_blank v) eqn:Hv.
    + destruct (b + 1 =? 2) eqn:Hb2.
      * apply Nat.eqb_eq in Hb2.
        exists 0. cbn [firstn kept filter map nth length].
        rewrite app_nil_r, Nat.add_0_r.
        split_all; [reflexivity | lia | | intros H; discriminate H].
        intros _. split; [exact Hv |]. unfold count_blank. simpl. lia.
      * apply Nat.eqb_neq in Hb2.
        destruct (IH vals (b + 1) (j + 1)) as [m [Hrun [Hle [Hstop Hend]]]];
          [lia |].
        exists (S m). rewrite Hrun. cbn [firstn]. rewrite kept_cons, Hv.
        cbn [negb andb length nth app].
        split_all.
        -- f_equal. lia.
        -- lia.
        -- intros Hlt. assert (m < length rest) as Hm by lia.
           destruct (Hstop Hm) as [Hbl Hc]. split; [exact Hbl |].
           rewrite count_blank_cons, Hv. lia.
        -- intros Hm. rewrite count_blank_cons, Hv.
           assert (m = length rest) as Hm' by lia.
           specialize (Hend Hm'). lia.
    + destruct (IH (if not_qmark v then vals ++ [PyStr.strip (str v)] else vals)
                   b (j + 1)) as [m [Hrun [Hle [Hstop Hend]]]];
        [lia |].
      exists (S m). rewrite Hrun. cbn [firstn]. rewrite kept_cons, Hv.
      cbn [negb andb length nth].
      split_all.
      * f_equal; [| lia].
        destruct (not_qmark v); [rewrite <- app_assoc |]; reflexivity.
      * lia.
      * intros Hlt. assert (m < length rest) as Hm by lia.
        destruct (Hstop Hm) as [Hbl Hc]. split; [exact Hbl |].
        rewrite count_blank_cons, Hv. lia.
      * intros Hm. rewrite count_blank_cons, Hv.
        assert (m = length rest) as Hm' by lia.
        specialize (Hend Hm'). lia.
Qed.

(** Whatever the category, a run reads a stretch of cells, keeps what
    [kept] says of it, and stops inside the table or at its end. *)
Lemma scan_cells_stretch cat : forall cells vals b j,
  exists m,
    scan_cells cat cells vals b j = (vals ++ kept (firstn m cells), j + m)
    /\ m <= length cells.
Proof.
  induction cells as [| v rest IH]; intros vals b j.
  - exists 0. simpl. rewrite app_nil_r, Nat.add_0_r. split; [reflexivity | lia].
  - cbn [scan_cells].
    destruct (is_blank v) eqn:Hv.
    + destruct (((b + 1 =? 2) && mem cat SECOND_BLANK_STOP)
                || mem cat FIRST_BLANK_STOP).
      * exists 0. cbn [firstn kept filter map length].
        rewrite app_nil_r, Nat.add_0_r. split; [reflexivity | lia].
      * destruct (IH vals (b + 1) (j + 1)) as [m [Hrun Hle]].
        exists (S m). rewrite Hrun. cbn [firstn]. rewrite kept_cons, Hv.
        cbn [negb andb length app]. split; [f_equal; lia | lia].
    + destruct (IH (if not_qmark v then vals ++ [PyStr.strip (str v)] else vals)
                   b (j + 1)) as [m [Hrun Hle]].
      exists (S m). rewrite Hrun. cbn [firstn]. rewrite kept_cons, Hv.
      cbn [negb andb length]. split; [| lia].
      f_equal; [| lia].
      destruct (not_qmark v); [rewrite <- app_assoc |]; reflexivity.
Qed.

Lemma cells_below_length df c i :
  i < nrows df -> length (cells_below df c i) = nrows df - (i + 1).
Proof.
  intros Hi. unfold cells_below. rewrite length_skipn, column_length.
  reflexivity.
Qed.

Lemma scan_run_stretch df cat c i :
  i < nrows df ->
  exists m,
    scan_run df cat c i = (kept (firstn m (cells_below df c i)), i + 1 + m)
    /\ i + 1 + m <= nrows df.
Proof.
  intros Hi. rewrite scan_run_cells by exact Hi.
  destruct (scan_cells_stretch cat (cells_below df c i) [] 0 (i + 1))
    as [m [Hrun Hle]].
  exists m. split; [exact Hrun |].
  rewrite cells_below_length in Hle by exact Hi. lia.
Qed.

(** ** One turn of the outer loop *)

Lemma outer_body_other df i results :
  is_target (cell_str (at_ df i 1)) = false ->
  outer_body df i results = Returned (i + 1, results).
Proof.
  intros H. unfold outer_body. fold (is_target (cell_str (at_ df i 1))).
  rewrite H. destruct (mem _ SKIP); reflexivity.
Qed.

Lemma outer_body_raises df i results msg :
  is_target (cell_str (at_ df i 1)) = true ->
  choose_column df i (cell_str (at_ df i 1)) = Raised msg ->
  outer_body df i results = Raised msg.
Proof.
  intros H Hc. unfold outer_body. fold (is_target (cell_str (at_ df i 1))).
  rewrite H, Hc. reflexivity.
Qed.

Lemma outer_body_run df i results c :
  is_target (cell_str (at_ df i 1)) = true ->
  choose_column df i (cell_str (at_ df i 1)) = Returned c ->
  outer_body df i results
  = Returned (snd (scan_run df (cell_str (at_ df i 1)) c i),
              dict_set (cell_str (at_ df i 1))
                       (fst (scan_run df (cell_str (at_ df i 1)) c i))
                       results).
Proof.
  intros H Hc. unfold outer_body. fold (is_target (cell_str (at_ df i 1))).
  rewrite H, Hc. destruct (scan_run _ _ _ _). reflexivity.
Qed.

Lemma outer_body_advances df i results i' results' :
  i < nrows df ->
  outer_body df i results = Returned (i', results') ->
  i < i' <= nrows df.
Proof.
  intros Hi Hb.
  destruct (is_target (cell_str (at_ df i 1))) eqn:Ht.
  - destruct (choose_column df i (cell_str (at_ df i 1))) as [c | msg] eqn:Hc.
    + rewrite (outer_body_run _ _ _ _ Ht Hc) in Hb.
      destruct (scan_run_stretch df (cell_str (at_ df i 1)) c i Hi)
        as [m [Hrun Hle]].
      rewrite Hrun in Hb. simpl in Hb. inversion Hb; subst. lia.
    + rewrite (outer_body_raises _ _ _ _ Ht Hc) in Hb. discriminate Hb.
  - rewrite (outer_body_other _ _ _ Ht) in Hb. inversion Hb; subst. lia.
Qed.

(** ** The outer loop *)

Lemma outer_loop_unfold fuel df i results :
  i < nrows df ->
  outer_loop (S fuel) df i results
  = match outer_body df i results with
    | Raised msg => Some (Raised msg)
    | Returned (i', results') => outer_loop fuel df i' results'
    end.
Proof.
  intros Hi. cbn [outer_loop].
  apply Nat.ltb_lt in Hi. rewrite Hi. reflexivity.
Qed.

Lemma outer_loop_done fuel df i results :
  nrows df <= i -> outer_loop fuel df i results = Some (Returned results).
Proof.
  intros Hi. apply Nat.ltb_ge in Hi.
  destruct fuel; cbn [outer_loop]; rewrite Hi; reflexivity.
Qed.

Lemma outer_loop_total df : forall fuel i results,
  nrows df - i <= fuel ->
  exists o, outer_loop fuel df i results = Some o.
Proof.
  induction fuel as [| fuel IH]; intros i results Hf.
  - exists (Returned results). apply outer_loop_done. lia.
  - destruct (Nat.lt_ge_cases i (nrows df)) as [Hi | Hi].
    + rewrite outer_loop_unfold by exact Hi.
      destruct (outer_body df i results) as [[i' results'] | msg] eqn:Hb.
      * apply outer_body_advances in Hb; [| exact Hi]. apply IH. lia.
      * eexists. reflexivity.
    + exists (Returned results). apply outer_loop_done. exact Hi.
Qed.

Lemma outer_loop_more_fuel df : forall fuel fuel' i results o,
  outer_loop fuel df i results = Some o ->
  fuel <= fuel' ->
  outer_loop fuel' df i results = Some o.
Proof.
  induction fuel as [| fuel IH]; intros fuel' i results o Hrun Hle.
  - destruct (Nat.lt_ge_cases i (nrows df)) as [Hi | Hi].
    + cbn [outer_loop] in Hrun. apply Nat.ltb_lt in Hi. rewrite Hi in Hrun.
      discriminate Hrun.
    + rewrite outer_loop_done in Hrun by exact Hi.
      rewrite outer_loop_done by exact Hi. exact Hrun.
  - destruct (Nat.lt_ge_cases i (nrows df)) as [Hi | Hi].
    + destruct fuel' as [| fuel']; [lia |].
      rewrite outer_loop_unfold in * by exact Hi.
      destruct (outer_body df i results) as [[i' results'] | msg].
      * apply (IH fuel'); [exact Hrun | lia].
      * exact Hrun.
    + rewrite outer_loop_done in Hrun by exact Hi.
      rewrite outer_loop_done by exact Hi. exact Hrun.
Qed.

(** From any state it passes through, the loop goes on to the result of
    the call. *)
Lemma loop_state_continues df i results :
  2 <= ncols df ->
  loop_state df i results ->
  exists fuel,
    nrows df - i <= fuel /\ outer_loop fuel df i results = read_legend df.
Proof.
  intros Hc Hs. induction Hs as [| i results i' results' Hs IH Hi Hb].
  - exists (nrows df). split; [lia |].
    unfold read_legend, read_legend_fuel.
    apply Nat.ltb_ge in Hc. rewrite Hc. reflexivity.
  - destruct IH as [fuel [Hf Hrun]].
    destruct fuel as [| fuel]; [lia |].
    rewrite outer_loop_unfold, Hb in Hrun by exact Hi.
    apply outer_body_advances in Hb; [| exact Hi].
    exists fuel. split; [lia | exact Hrun].
Qed.

(** * The claims *)

(** C5. A frame with fewer than two columns makes [read_legend] raise
    the structural error about the two columns; no mapping is returned. *)
Theorem too_few_columns_raises (df : DataFrame) :
  ncols df < 2 ->
  read_legend df = Some (Raised msg_two_columns)
  /\ forall m, read_legend df <> Some (Returned m).
Proof.
  intros Hc.
  assert (read_legend df = Some (Raised msg_two_columns)) as Hr.
  { unfold read_legend, read_legend_fuel.
    apply Nat.ltb_lt in Hc. rewrite Hc. reflexivity. }
  split; [exact Hr |].
  intros m Hm. rewrite Hr in Hm. discriminate Hm.
Qed.

Lemma too_few_columns_raises_witness :
  read_legend (mkFrame 1 [[CStr "Device Name"]; [CStr "Alpha"]])
  = Some (Raised msg_two_columns).
Proof.
  apply (too_few_columns_raises
           (mkFrame 1 [[CStr "Device Name"]; [CStr "Alpha"]])).
  simpl. lia.
Defined.

(** C8. The directory name is the selections in their order, then the
    trimmed time, then the trimmed server, with an underscore between
    neighbours; on ["Alpha"; "X"], [" 2025-07-23_14-00 "] and
    ["Server01 "] it is ["Alpha_X_2025-07-23_14-00_Server01"]. *)
Theorem folder_name_underscore_join :
  (forall selections time_str server_str,
     folder_name selections time_str server_str
     = fold_right (fun x rest => x ++ "_" ++ rest)
         (PyStr.strip time_str ++ "_" ++ PyStr.strip server_str)
         selections)%string
  /\ folder_name ["Alpha"; "X"] " 2025-07-23_14-00 " "Server01 "
     = "Alpha_X_2025-07-23_14-00_Server01".
Proof.
  split; [| reflexivity].
  intros selections time_str server_str. unfold folder_name.
  induction selections as [| x rest IH].
  - reflexivity.
  - cbn [app fold_right]. rewrite <- IH.
    destruct rest; reflexivity.
Qed.

Lemma scan_cells_value cat v rest vals b j :
  is_blank v = false ->
  scan_cells cat (v :: rest) vals b j
  = scan_cells cat rest
      (if not_qmark v then vals ++ [PyStr.strip (str v)] else vals) b (j + 1).
Proof. intros Hv. cbn [scan_cells]. rewrite Hv. reflexivity. Qed.

Lemma scan_cells_first_blank cat v rest vals b j :
  is_blank v = true ->
  mem cat FIRST_BLANK_STOP = true ->
  scan_cells cat (v :: rest) vals b j = (vals, j).
Proof.
  intros Hv Hcat. cbn [scan_cells]. rewrite Hv, Hcat, orb_true_r. reflexivity.
Qed.

Lemma blank_is_no_target v : is_blank v = true -> is_target (cell_str v) = false.
Proof.
  unfold cell_str, is_blank. destruct (isna v); [reflexivity |].
  cbn [orb]. intros H. apply String.eqb_eq in H. rewrite H. reflexivity.
Qed.

(** C1. On a frame of at least two columns whose key column reads
    "Device Name", "Alpha", blank, "Coolant", "X", "?", "Y", blank,
    whatever the other columns hold, [read_legend] returns
    {"Device Name": ["Alpha"], "Coolant": ["X", "Y"]}. *)
Theorem legend_scenario (df : DataFrame) (b1 b2 : cell) :
  2 <= ncols df ->
  is_blank b1 = true ->
  is_blank b2 = true ->
  key_column df
  = [CStr "Device Name"; CStr "Alpha"; b1;
     CStr "Coolant"; CStr "X"; CStr "?"; CStr "Y"; b2] ->
  read_legend df
  = Some (Returned [("Device Name", ["Alpha"]); ("Coolant", ["X"; "Y"])]).
Proof.
  intros Hc Hb1 Hb2 Hkey.
  assert (nrows df = 8) as Hn.
  { rewrite <- (column_length df 1). fold (key_column df).
    rewrite Hkey. reflexivity. }
  assert (forall j, at_ df j 1 = nth j (key_column df) CNaN) as Hat
    by (intros j; apply at_column).
  rewrite Hkey in Hat.
  unfold read_legend, read_legend_fuel.
  apply Nat.ltb_ge in Hc. rewrite Hc, Hn.
  (* row 0: "Device Name", run ["Alpha"], stopped by the blank of row 2 *)
  rewrite outer_loop_unfold by lia.
  assert (outer_body df 0 [] = Returned (2, [("Device Name", ["Alpha"])]))
    as Hrow0.
  { rewrite (outer_body_run df 0 [] 1); rewrite ?(Hat 0); try reflexivity.
    rewrite scan_run_cells by lia. unfold cells_below.
    fold (key_column df). rewrite Hkey. cbn [skipn Nat.add nth].
    rewrite scan_cells_value by reflexivity.
    rewrite scan_cells_first_blank by (exact Hb1 || reflexivity).
    reflexivity. }
  rewrite Hrow0.
  (* row 2: blank *)
  rewrite outer_loop_unfold by lia.
  rewrite outer_body_other
    by (rewrite (Hat 2); apply blank_is_no_target; exact Hb1).
  change (2 + 1) with 3.
  (* row 3: "Coolant", run ["X"; "Y"], stopped by the blank of row 7 *)
  rewrite outer_loop_unfold by lia.
  assert (outer_body df 3 [("Device Name", ["Alpha"])]
          = Returned (7, [("Device Name", ["Alpha"]); ("Coolant", ["X"; "Y"])]))
    as Hrow3.
  { rewrite (outer_body_run df 3 _ 1); rewrite ?(Hat 3); try reflexivity.
    rewrite scan_run_cells by lia. unfold cells_below.
    fold (key_column df). rewrite Hkey. cbn [skipn Nat.add nth].
    rewrite !scan_cells_value by reflexivity.
    rewrite scan_cells_first_blank by (exact Hb2 || reflexivity).
    reflexivity. }
  rewrite Hrow3.
  (* row 7: blank, then the end of the table *)
  rewrite outer_loop_unfold by lia.
  rewrite outer_body_other
    by (rewrite (Hat 7); apply blank_is_no_target; exact Hb2).
  apply outer_loop_done. lia.
Qed.

Lemma legend_scenario_witness :
  read_legend (mkFrame 2
    [[CNaN; CStr "Device Name"]; [CNaN; CStr "Alpha"]; [CNaN; CNaN];
     [CNaN; CStr "Coolant"]; [CNaN; CStr "X"]; [CNaN; CStr "?"];
     [CNaN; CStr "Y"]; [CNaN; CStr "  "]])
  = Some (Returned [("Device Name", ["Alpha"]); ("Coolant", ["X"; "Y"])]).
Proof.
  apply (legend_scenario _ CNaN (CStr "  "));
    [simpl; lia | reflexivity | reflexivity | reflexivity].
Defined.

Lemma inner_loop_forward df cat c : forall k vals b j,
  j <= snd (inner_loop df cat c k vals b j) <= j + k.
Proof.
  induction k as [| k IH]; intros vals b j.
  - simpl. lia.
  - cbn [inner_loop].
    destruct (is_blank (at_ df j c)).
    + destruct (((b + 1 =? 2) && mem cat SECOND_BLANK_STOP)
                || mem cat FIRST_BLANK_STOP).
      * simpl. lia.
      * specialize (IH vals (b + 1) (j + 1)). lia.
    + specialize
        (IH (if not_qmark (at_ df j c)
             then vals ++ [PyStr.strip (str (at_ df j c))] else vals)
            b (j + 1)).
      lia.
Qed.

(** C10. [read_legend] returns or raises on every frame, within one
    turn of the outer loop per row: the inner loop only moves forward
    from [i + 1], so a turn on a category row moves the cursor to a row
    past the marker, and a turn on any other row moves it by one. *)
Theorem read_legend_terminates (df : DataFrame) :
  (exists o, read_legend df = Some o)
  /\ (forall fuel,
        nrows df <= fuel -> read_legend_fuel fuel df = read_legend df)
  /\ (forall cat c k vals b j,
        j <= snd (inner_loop df cat c k vals b j) <= j + k)
  /\ (forall i results i' results',
        i < nrows df ->
        outer_body df i results = Returned (i', results') ->
        i < i' <= nrows df
        /\ (is_target (cell_str (at_ df i 1)) = false -> i' = i + 1)
        /\ (is_target (cell_str (at_ df i 1)) = true ->
            exists c,
              choose_column df i (cell_str (at_ df i 1)) = Returned c
              /\ i' = snd (scan_run df (cell_str (at_ df i 1)) c i)
              /\ i + 1 <= i')).
Proof.
  assert (exists o, read_legend df = Some o) as Htotal.
  { unfold read_legend, read_legend_fuel.
    destruct (ncols df <? 2); [eexists; reflexivity |].
    apply outer_loop_total. lia. }
  split_all.
  - exact Htotal.
  - intros fuel Hf. destruct Htotal as [o Ho]. rewrite Ho.
    unfold read_legend, read_legend_fuel in *.
    destruct (ncols df <? 2); [exact Ho |].
    apply (outer_loop_more_fuel df (nrows df)); assumption.
  - intros cat c. apply inner_loop_forward.
  - intros i results i' results' Hi Hb.
    split; [| split].
    + apply (outer_body_advances df i results i' results'); assumption.
    + intros Ht. rewrite (outer_body_other _ _ _ Ht) in Hb.
      inversion Hb. reflexivity.
    + intros Ht.
      destruct (choose_column df i (cell_str (at_ df i 1)))
        as [c | msg] eqn:Hc.
      * exists c. rewrite (outer_body_run _ _ _ _ Ht Hc) in Hb.
        inversion Hb; subst. split_all; try reflexivity.
        unfold scan_run.
        pose proof (inner_loop_forward df (cell_str (at_ df i 1)) c
                      (nrows df - (i + 1)) [] 0 (i + 1)).
        lia.
      * rewrite (outer_body_raises _ _ _ _ Ht Hc) in Hb. discriminate Hb.
Qed.

Lemma read_legend_terminates_witness :
  0 < 2 <= nrows (mkFrame 2 [[CNaN; CStr "Coolant"]; [CNaN; CStr "X"];
                             [CNaN; CNaN]; [CNaN; CStr "Y"]]).
Proof.
  refine (proj1 (proj2 (proj2 (proj2 (read_legend_terminates _)))
                   0 [] 2 [("Coolant", ["X"])] _ _)).
  - unfold nrows. simpl. lia.
  - reflexivity.
Defined.

(** ** The abbreviation header *)

Lemma first_index_none {A : Type} (p : A -> bool) (xs : list A) :
  first_index p xs = None <-> forall x, In x xs -> p x = false.
Proof.
  induction xs as [| x rest IH]; simpl.
  - split; [intros _ y [] | reflexivity].
  - destruct (p x) eqn:Hx.
    + split; [discriminate |].
      intros H. rewrite (H x (or_introl eq_refl)) in Hx. discriminate Hx.
    + destruct (first_index p rest) as [k |]; simpl.
      * split; [discriminate |].
        intros H. destruct IH as [_ IH].
        discriminate IH. intros y Hy. apply H. right. exact Hy.
      * split; [| reflexivity].
        intros _ y [Hy | Hy]; [subst; exact Hx |].
        destruct IH as [IH _]. apply IH; [reflexivity | exact Hy].
Qed.

Lemma first_index_some {A : Type} (p : A -> bool) (d : A) (xs : list A) k :
  first_index p xs = Some k
  <-> k < length xs /\ p (nth k xs d) = true
      /\ forall k', k' < k -> p (nth k' xs d) = false.
Proof.
  revert k. induction xs as [| x rest IH]; intros k; simpl.
  - split; [discriminate | intros [H _]; lia].
  - destruct (p x) eqn:Hx.
    + split.
      * intros H. inversion H; subst. split_all; [lia | exact Hx | lia].
      * intros [_ [_ Hmin]]. destruct k as [| k]; [reflexivity |].
        specialize (Hmin 0 (Nat.lt_0_succ k)). simpl in Hmin.
        rewrite Hmin in Hx. discriminate Hx.
    + destruct k as [| k].
      * split.
        -- destruct (first_index p rest); discriminate.
        -- intros [_ [H _]]. rewrite H in Hx. discriminate Hx.
      * specialize (IH k). split.
        -- intros H. destruct (first_index p rest) as [k0 |]; [| discriminate].
           simpl in H. inversion H; subst k0.
           destruct IH as [IH _]. destruct (IH eq_refl) as [Hlt [Hp Hmin]].
           split_all; [lia | exact Hp |].
           intros [| k'] Hk'; [exact Hx | apply Hmin; lia].
        -- intros [Hlt [Hp Hmin]]. destruct IH as [_ IH].
           rewrite IH; [reflexivity |].
           split_all; [lia | exact Hp |].
           intros k' Hk'. apply (Hmin (S k')). lia.
Qed.

(** C6. When the outer loop stops on the marker row [i] of a
    with-abbreviation category and no cell of that row reads, trimmed,
    "Abbreviation" or "Abbrevation", [read_legend] raises the error
    [No 'Abbreviation' column found in row i.] and returns no mapping. *)
Theorem missing_abbreviation_raises (df : DataFrame) (i : nat) (cat : string) :
  2 <= ncols df ->
  marker_row df i cat ->
  mem cat TARGET_WITH_ABBREVIATION = true ->
  (forall v, In v (row_values df i) -> mem (cell_str v) candidates = false) ->
  read_legend df
  = Some (Raised ("No 'Abbreviation' column found in row "
                  ++ PyStr.of_nat i ++ "."))
  /\ forall m, read_legend df <> Some (Returned m).
Proof.
  intros Hc [[results Hs] [Hi [Hkey Ht]]] Hwith Hrow.
  assert (read_legend df = Some (Raised (msg_no_abbreviation i))) as Hr.
  { destruct (loop_state_continues df i results Hc Hs) as [fuel [Hf Hrun]].
    destruct fuel as [| fuel]; [lia |].
    rewrite <- Hrun, outer_loop_unfold by exact Hi.
    rewrite (outer_body_raises df i results (msg_no_abbreviation i));
      [reflexivity | rewrite Hkey; exact Ht |].
    rewrite Hkey. unfold choose_column. rewrite Hwith.
    replace (abbrev_index (row_values df i)) with (@None nat); [reflexivity |].
    symmetry. apply first_index_none. intros v Hv.
    specialize (Hrow v Hv). destruct v; try reflexivity. exact Hrow. }
  split; [exact Hr |].
  intros m Hm. rewrite Hr in Hm. discriminate Hm.
Qed.

Lemma missing_abbreviation_raises_witness :
  read_legend (mkFrame 3
    [[CNaN; CStr "Device Name"; CNaN]; [CNaN; CStr "Alpha"; CNaN];
     [CNaN; CNaN; CNaN]; [CNaN; CStr "Pump"; CStr "Short name"];
     [CNaN; CStr "Big pump"; CStr "BP"]])
  = Some (Raised "No 'Abbreviation' column found in row 3.").
Proof.
  refine (proj1 (missing_abbreviation_raises _ 3 "Pump" _ _ _ _)).
  - unfold nrows. simpl. lia.
  - unfold marker_row.
    split_all; [| unfold nrows; simpl; lia | reflexivity | reflexivity].
    eexists.
    eapply (loop_turn _ 2); [| unfold nrows; simpl; lia | reflexivity].
    eapply (loop_turn _ 0); [apply loop_start | unfold nrows; simpl; lia | reflexivity].
  - reflexivity.
  - intros v Hv. simpl in Hv.
    repeat (destruct Hv as [Hv | Hv]; [subst v; reflexivity |]).
    contradiction.
Defined.

Lemma is_abbrev_header_reads v :
  is_abbrev_header v = true <-> reads_abbreviation v.
Proof.
  unfold reads_abbreviation, reads. split.
  - destruct v as [| s | r]; cbn [is_abbrev_header]; try discriminate.
    intros H. apply mem_In in H. simpl in H.
    destruct H as [H | [H | []]]; [left | right]; exists s; auto.
  - intros [[s [Hv Hs]] | [s [Hv Hs]]]; subst v; simpl; rewrite Hs;
      reflexivity.
Qed.

Lemma first_index_swap {A : Type} (p : A -> bool) (a b : A) pre post :
  p a = p b ->
  first_index p (pre ++ a :: post) = first_index p (pre ++ b :: post).
Proof.
  intros Hab. induction pre as [| x pre IH]; simpl.
  - rewrite Hab. reflexivity.
  - rewrite IH. reflexivity.
Qed.

Lemma abbrev_index_first row k :
  abbrev_index row = Some k
  <-> k < length row
      /\ reads_abbreviation (nth k row CNaN)
      /\ forall k', k' < k -> ~ reads_abbreviation (nth k' row CNaN).
Proof.
  unfold abbrev_index. rewrite (first_index_some _ CNaN).
  split; intros [Hlt [Hp Hmin]]; split_all; try exact Hlt.
  - apply is_abbrev_header_reads. exact Hp.
  - intros k' Hk' Hr. apply is_abbrev_header_reads in Hr.
    rewrite (Hmin k' Hk') in Hr. discriminate Hr.
  - apply is_abbrev_header_reads. exact Hp.
  - intros k' Hk'.
    destruct (is_abbrev_header (nth k' row CNaN)) eqn:E; [| reflexivity].
    exfalso. apply (Hmin k' Hk'). apply is_abbrev_header_reads. exact E.
Qed.

(** C7. For a with-abbreviation category the value column is the
    position of the first cell of the marker row that reads, trimmed,
    "Abbreviation" or "Abbrevation"; writing the header in the
    misspelled way instead of the correct one selects the same column. *)
Theorem misspelled_header_same_column (df : DataFrame) (i : nat) (cat : string) :
  mem cat TARGET_WITH_ABBREVIATION = true ->
  (forall k,
     choose_column df i cat = Returned k
     <-> k < length (row_values df i)
         /\ reads_abbreviation (nth k (row_values df i) CNaN)
         /\ forall k', k' < k ->
              ~ reads_abbreviation (nth k' (row_values df i) CNaN))
  /\ (forall df' pre good bad post,
        row_values df i = pre ++ bad :: post ->
        row_values df' i = pre ++ good :: post ->
        reads "Abbrevation" bad ->
        reads "Abbreviation" good ->
        choose_column df i cat = choose_column df' i cat).
Proof.
  intros Hwith. split.
  - intros k. unfold choose_column. rewrite Hwith.
    rewrite <- abbrev_index_first.
    destruct (abbrev_index (row_values df i)) as [k0 |].
    + split; intros H; inversion H; reflexivity.
    + split; discriminate.
  - intros df' pre good bad post Hrow Hrow' Hbad Hgood.
    unfold choose_column. rewrite Hwith, Hrow, Hrow'. unfold abbrev_index.
    rewrite (first_index_swap is_abbrev_header bad good); [reflexivity |].
    assert (is_abbrev_header bad = true) as ->
      by (apply is_abbrev_header_reads; right; exact Hbad).
    symmetry. apply is_abbrev_header_reads. left. exact Hgood.
Qed.

Lemma misspelled_header_same_column_witness :
  choose_column
    (mkFrame 4 [[CNaN; CStr "Pump"; COther "1.5"; CStr " Abbrevation"]]) 0 "Pump"
  = choose_column
    (mkFrame 4 [[CNaN; CStr "Pump"; COther "1.5"; CStr "Abbreviation"]]) 0 "Pump".
Proof.
  refine (proj2 (misspelled_header_same_column _ 0 "Pump" _) _
            [CNaN; CStr "Pump"; COther "1.5"] (CStr "Abbreviation")
            (CStr " Abbrevation") [] _ _ _ _).
  - reflexivity.
  - reflexivity.
  - reflexivity.
  - eexists. split; reflexivity.
  - eexists. split; reflexivity.
Defined.

Lemma nth_cells_below df c i m :
  nth m (cells_below df c i) CNaN = at_ df (i + 1 + m) c.
Proof. unfold cells_below. rewrite nth_skipn, at_column. reflexivity. Qed.

Lemma kept_app xs ys : kept (xs ++ ys) = kept xs ++ kept ys.
Proof. unfold kept. rewrite filter_app, map_app. reflexivity. Qed.

Lemma kept_no_blank cells :
  Forall (fun v => is_blank v = false) cells ->
  kept cells = map (fun v => PyStr.strip (str v)) (filter not_qmark cells).
Proof.
  intros H. unfold kept. f_equal.
  induction H as [| v rest Hv _ IH]; [reflexivity |].
  simpl. rewrite Hv, IH. reflexivity.
Qed.

Lemma scan_cells_values cat pre : forall rest vals b j,
  Forall (fun v => is_blank v = false) pre ->
  scan_cells cat (pre ++ rest) vals b j
  = scan_cells cat rest (vals ++ kept pre) b (j + length pre).
Proof.
  induction pre as [| v pre IH]; intros rest vals b j Hpre.
  - simpl. rewrite app_nil_r, Nat.add_0_r. reflexivity.
  - inversion Hpre as [| ? ? Hv Hrest]; subst.
    cbn [app]. rewrite scan_cells_value by exact Hv.
    rewrite IH by exact Hrest.
    rewrite kept_cons, Hv. cbn [negb andb length].
    f_equal; [| lia].
    destruct (not_qmark v); [rewrite <- app_assoc |]; reflexivity.
Qed.

Lemma scan_cells_second_blank cat v rest vals b j :
  is_blank v = true ->
  mem cat SECOND_BLANK_STOP = true ->
  scan_cells cat (v :: rest) vals b j
  = if b + 1 =? 2 then (vals, j)
    else scan_cells cat rest vals (b + 1) (j + 1).
Proof.
  intros Hv Hcat. cbn [scan_cells].
  rewrite Hv, Hcat, (second_stop_not_first cat Hcat), andb_true_r, orb_false_r.
  reflexivity.
Qed.

(** C3. The run of a second-blank-stop category stops inside the table
    exactly on the cell that brings the count of blank cells of the run
    to two, and otherwise goes to the end of the table.  The count is
    never reset: blank, values, blank stops on the second blank; one
    blank and nothing but values after it goes to the end. *)
Theorem second_blank_stops_run (df : DataFrame) (i c : nat) (cat : string) :
  i < nrows df ->
  mem cat SECOND_BLANK_STOP = true ->
  (exists m,
     scan_run df cat c i = (kept (firstn m (cells_below df c i)), i + 1 + m)
     /\ i + 1 + m <= nrows df
     /\ (i + 1 + m < nrows df ->
         is_blank (at_ df (i + 1 + m) c) = true
         /\ count_blank (firstn m (cells_below df c i)) = 1)
     /\ (i + 1 + m = nrows df -> count_blank (cells_below df c i) <= 1))
  /\ (forall pre b1 mid b2 post,
        cells_below df c i = pre ++ b1 :: mid ++ b2 :: post ->
        Forall (fun v => is_blank v = false) pre ->
        is_blank b1 = true ->
        Forall (fun v => is_blank v = false) mid ->
        is_blank b2 = true ->
        scan_run df cat c i
        = (kept (pre ++ mid), i + 1 + length pre + 1 + length mid))
  /\ (forall pre b1 post,
        cells_below df c i = pre ++ b1 :: post ->
        Forall (fun v => is_blank v = false) pre ->
        is_blank b1 = true ->
        Forall (fun v => is_blank v = false) post ->
        scan_run df cat c i = (kept (pre ++ post), nrows df)).
Proof.
  intros Hi Hcat. rewrite scan_run_cells by exact Hi.
  pose proof (cells_below_length df c i Hi) as Hlen.
  split_all.
  - destruct (scan_cells_second cat Hcat (cells_below df c i) [] 0 (i + 1))
      as [m [Hrun [Hle [Hstop Hend]]]]; [lia |].
    exists m. split_all.
    + exact Hrun.
    + lia.
    + intros Hlt. rewrite <- nth_cells_below. apply Hstop. lia.
    + intros Hm. apply Hend. lia.
  - intros pre b1 mid b2 post Hcells Hpre Hb1 Hmid Hb2.
    rewrite Hcells.
    rewrite scan_cells_values by exact Hpre.
    rewrite scan_cells_second_blank by assumption. cbn [Nat.add Nat.eqb].
    rewrite scan_cells_values by exact Hmid.
    rewrite scan_cells_second_blank by assumption. cbn [Nat.add Nat.eqb].
    rewrite kept_app. f_equal; lia.
  - intros pre b1 post Hcells Hpre Hb1 Hpost.
    rewrite Hcells in *.
    rewrite scan_cells_values by exact Hpre.
    rewrite scan_cells_second_blank by assumption. cbn [Nat.add Nat.eqb].
    rewrite <- (app_nil_r post) at 1.
    rewrite scan_cells_values by exact Hpost.
    cbn [scan_cells]. rewrite kept_app.
    rewrite length_app in Hlen. cbn [length] in Hlen.
    f_equal; try lia.
Qed.

Lemma second_blank_stops_run_witness :
  scan_run
    (mkFrame 3
       [[CNaN; CStr "Frame Version"; CStr "Abbreviation"];
        [CNaN; CStr "Frame one"; CStr "F1"];
        [CNaN; CNaN; CNaN];
        [CNaN; CStr "Frame two"; CStr "F2"];
        [CNaN; CNaN; CStr " "];
        [CNaN; CStr "Coolant"; CNaN]])
    "Frame Version" 2 0
  = (["F1"; "F2"], 4).
Proof.
  refine (proj1 (proj2 (second_blank_stops_run _ 0 2 "Frame Version" _ _))
            [CStr "F1"] CNaN [CStr "F2"] (CStr " ") [CNaN] _ _ _ _ _).
  - unfold nrows. simpl. lia.
  - reflexivity.
  - reflexivity.
  - repeat constructor.
  - reflexivity.
  - repeat constructor.
  - reflexivity.
Defined.

Lemma dict_get_set_same k v d : dict_get k (dict_set k v d) = Some v.
Proof.
  induction d as [| [k' v'] d IH]; simpl.
  - rewrite String.eqb_refl. reflexivity.
  - destruct (k' =? k)%string eqn:E; simpl.
    + rewrite String.eqb_refl. reflexivity.
    + rewrite E. exact IH.
Qed.

(** On the marker row of a first-blank-stop category the inner loop
    stops on the first blank cell of the value column below the marker,
    or at the end of the table when there is none.  The list stored is
    the trimmed text of the cells in between that pass the test
    [v != "?"], which the code makes on the cell as it is, before
    trimming. *)
Theorem first_blank_stops_run
    (df : DataFrame) (i c : nat) (cat : string) (results : legend) :
  i < nrows df ->
  cell_str (at_ df i 1) = cat ->
  mem cat FIRST_BLANK_STOP = true ->
  choose_column df i cat = Returned c ->
  exists m vals results',
    outer_body df i results = Returned (i + 1 + m, results')
    /\ results' = dict_set cat vals results
    /\ dict_get cat results' = Some vals
    /\ vals = map (fun v => PyStr.strip (str v))
                  (filter not_qmark (firstn m (cells_below df c i)))
    /\ i + 1 + m <= nrows df
    /\ (forall j, i + 1 <= j < i + 1 + m -> is_blank (at_ df j c) = false)
    /\ (i + 1 + m < nrows df -> is_blank (at_ df (i + 1 + m) c) = true).
Proof.
  intros Hi Hkey Hcat Hcol.
  pose proof (cells_below_length df c i Hi) as Hlen.
  destruct (scan_cells_first cat Hcat (cells_below df c i) [] 0 (i + 1))
    as [m [Hrun [Hle [Hnb Hstop]]]].
  exists m, (kept (firstn m (cells_below df c i))),
    (dict_set cat (kept (firstn m (cells_below df c i))) results).
  split_all.
  - rewrite (outer_body_run df i results c);
      rewrite ?Hkey; [| apply first_stop_is_target; exact Hcat | exact Hcol].
    rewrite scan_run_cells, Hrun by exact Hi. reflexivity.
  - reflexivity.
  - apply dict_get_set_same.
  - apply kept_no_blank. exact Hnb.
  - lia.
  - intros j Hj.
    replace j with (i + 1 + (j - (i + 1))) by lia.
    rewrite <- nth_cells_below.
    rewrite Forall_forall in Hnb. apply Hnb.
    rewrite <- (firstn_skipn m (cells_below df c i)) at 1.
    rewrite app_nth1 by (rewrite length_firstn; lia).
    apply nth_In. rewrite length_firstn. lia.
  - intros Hlt. rewrite <- nth_cells_below. apply Hstop. lia.
Qed.

Lemma first_blank_stops_run_witness :
  exists m vals results',
    outer_body
      (mkFrame 3
         [[CNaN; CStr "Pump"; CStr "Abbrevation"];
          [CNaN; CStr "Big pump"; CStr " BP "];
          [CNaN; CStr "No pump"; CStr "?"];
          [CNaN; CStr "Small pump"; COther "12"];
          [CNaN; CStr "Coolant"; CNaN];
          [CNaN; CStr "Water"; CNaN]])
      0 [] = Returned (0 + 1 + m, results')
    /\ results' = dict_set "Pump" vals []
    /\ dict_get "Pump" results' = Some vals
    /\ vals = ["BP"; "12"].
Proof.
  destruct (first_blank_stops_run
    (mkFrame 3
         [[CNaN; CStr "Pump"; CStr "Abbrevation"];
          [CNaN; CStr "Big pump"; CStr " BP "];
          [CNaN; CStr "No pump"; CStr "?"];
          [CNaN; CStr "Small pump"; COther "12"];
          [CNaN; CStr "Coolant"; CNaN];
          [CNaN; CStr "Water"; CNaN]]) 0 2 "Pump" [])
    as [m [vals [results' [Hb [Hr [Hg [Hv [Hle [Hnb Hstop]]]]]]]]].
  - unfold nrows. simpl. lia.
  - reflexivity.
  - reflexivity.
  - reflexivity.
  - exists m, vals, results'. split_all; try assumption.
    assert (m = 3) as ->.
    { vm_compute in Hb. inversion Hb. reflexivity. }
    rewrite Hv. reflexivity.
Defined.

(** C4. On the frame whose key column reads "Device Name", "Alpha",
    " ?", blank, the run of "Device Name" stops on the first blank cell,
    row 3, as the claim says; but the list stored is ["Alpha"; "?"] and
    not the trimmed values other than "?", which are ["Alpha"]: the cell
    " ?" reads "?" once trimmed and is kept. *)
Theorem first_blank_run_keeps_padded_question_mark :
  mem "Device Name" FIRST_BLANK_STOP = true
  /\ is_blank (at_ (mkFrame 2 [[CNaN; CStr "Device Name"]; [CNaN; CStr "Alpha"];
                               [CNaN; CStr " ?"]; [CNaN; CNaN]]) 1 1) = false
  /\ is_blank (at_ (mkFrame 2 [[CNaN; CStr "Device Name"]; [CNaN; CStr "Alpha"];
                               [CNaN; CStr " ?"]; [CNaN; CNaN]]) 2 1) = false
  /\ is_blank (at_ (mkFrame 2 [[CNaN; CStr "Device Name"]; [CNaN; CStr "Alpha"];
                               [CNaN; CStr " ?"]; [CNaN; CNaN]]) 3 1) = true
  /\ map cell_str
       (firstn 2 (cells_below
                    (mkFrame 2 [[CNaN; CStr "Device Name"]; [CNaN; CStr "Alpha"];
                                [CNaN; CStr " ?"]; [CNaN; CNaN]]) 1 0))
     = ["Alpha"; "?"]
  /\ outer_body
       (mkFrame 2 [[CNaN; CStr "Device Name"]; [CNaN; CStr "Alpha"];
                   [CNaN; CStr " ?"]; [CNaN; CNaN]]) 0 []
     = Returned (3, [("Device Name", ["Alpha"; "?"])]).
Proof. split_all; reflexivity. Qed.

(** ** The ["?"] filter *)

(** A cell that holds exactly ["?"] is dropped: it is not blank, so it
    neither counts nor stops the run, and nothing is appended for it.
    Any other cell that is not blank is appended, trimmed. *)
Lemma question_mark_cells df cat c k vals b j :
  (at_ df j c = CStr "?" ->
   inner_loop df cat c (S k) vals b j
   = inner_loop df cat c k vals b (j + 1))
  /\ (is_blank (at_ df j c) = false ->
      at_ df j c <> CStr "?" ->
      inner_loop df cat c (S k) vals b j
      = inner_loop df cat c k
          (vals ++ [PyStr.strip (str (at_ df j c))]) b (j + 1)).
Proof.
  split.
  - intros Hv. cbn [inner_loop]. rewrite Hv. reflexivity.
  - intros Hnb Hq. cbn [inner_loop]. rewrite Hnb.
    replace (not_qmark (at_ df j c)) with true; [reflexivity |].
    destruct (at_ df j c) as [| s | r]; try reflexivity.
    cbn [not_qmark]. destruct (String.eqb_spec s "?") as [-> | Hne];
      [contradiction Hq |]; reflexivity.
Qed.

(** C2. The filter compares the cell itself with ["?"], not its trimmed
    text: a cell [" ?"] is not blank, is not equal to ["?"], and is
    appended trimmed, so that ["?"] ends up in the Option List. *)
Theorem padded_question_mark_is_kept :
  PyStr.strip " ?" = "?"
  /\ read_legend
       (mkFrame 2 [[CNaN; CStr "Device Name"]; [CNaN; CStr "Alpha"];
                   [CNaN; CStr " ?"]; [CNaN; CNaN]])
     = Some (Returned [("Device Name", ["Alpha"; "?"])])
  /\ read_legend
       (mkFrame 2 [[CNaN; CStr "Device Name"]; [CNaN; CStr "Alpha"];
                   [CNaN; CStr "?"]; [CNaN; CNaN]])
     = Some (Returned [("Device Name", ["Alpha"])]).
Proof. split_all; reflexivity. Qed.

(** ** Keys of the mapping *)

Lemma dict_get_set_other k k' v d :
  k' <> k -> dict_get k (dict_set k' v d) = dict_get k d.
Proof.
  intros Hne. induction d as [| [k0 v0] d IH]; simpl.
  - destruct (String.eqb_spec k' k); [contradiction | reflexivity].
  - destruct (String.eqb_spec k0 k') as [-> | Hne0]; simpl.
    + destruct (String.eqb_spec k' k); [contradiction | reflexivity].
    + rewrite IH. reflexivity.
Qed.

Lemma dict_get_in_keys k v d : dict_get k d = Some v -> In k (keys d).
Proof.
  induction d as [| [k0 v0] d IH]; simpl; [discriminate |].
  destruct (String.eqb_spec k0 k) as [-> | Hne].
  - intros _. left. reflexivity.
  - intros H. right. apply IH. exact H.
Qed.

Lemma keys_dict_set k v d :
  keys (dict_set k v d) = if mem k (keys d) then keys d else keys d ++ [k].
Proof.
  induction d as [| [k0 v0] d IH]; [reflexivity |].
  unfold mem, keys in *. cbn [dict_set map fst existsb].
  rewrite (String.eqb_sym k k0).
  destruct (String.eqb_spec k0 k) as [-> | Hne]; cbn [map fst orb app].
  - reflexivity.
  - rewrite IH. destruct (existsb (String.eqb k) (map fst d)); reflexivity.
Qed.

Lemma dict_set_nodup k v d : NoDup (keys d) -> NoDup (keys (dict_set k v d)).
Proof.
  intros Hd. rewrite keys_dict_set.
  destruct (mem k (keys d)) eqn:Hk; [exact Hd |].
  apply NoDup_app; [exact Hd | repeat constructor; intros [] |].
  intros x Hx [Hx' | []]. subst x.
  apply mem_In in Hx. rewrite Hx in Hk. discriminate Hk.
Qed.

Lemma loop_state_nodup df i results :
  loop_state df i results -> NoDup (keys results).
Proof.
  intros Hs. induction Hs as [| i results i' results' Hs IH Hi Hb].
  - constructor.
  - destruct (is_target (cell_str (at_ df i 1))) eqn:Ht.
    + destruct (choose_column df i (cell_str (at_ df i 1))) as [c | msg] eqn:Hc.
      * rewrite (outer_body_run _ _ _ _ Ht Hc) in Hb. inversion Hb; subst.
        apply dict_set_nodup. exact IH.
      * rewrite (outer_body_raises _ _ _ _ Ht Hc) in Hb. discriminate Hb.
    + rewrite (outer_body_other _ _ _ Ht) in Hb. inversion Hb; subst. exact IH.
Qed.

(** The mapping returned is the one of the last state of the loop. *)
Lemma outer_loop_last_state df m : forall fuel i results,
  loop_state df i results ->
  outer_loop fuel df i results = Some (Returned m) ->
  exists i', nrows df <= i' /\ loop_state df i' m.
Proof.
  induction fuel as [| fuel IH]; intros i results Hs Hrun.
  - destruct (Nat.lt_ge_cases i (nrows df)) as [Hi | Hi].
    + cbn [outer_loop] in Hrun. apply Nat.ltb_lt in Hi. rewrite Hi in Hrun.
      discriminate Hrun.
    + rewrite outer_loop_done in Hrun by exact Hi. inversion Hrun; subst.
      exists i. split; assumption.
  - destruct (Nat.lt_ge_cases i (nrows df)) as [Hi | Hi].
    + rewrite outer_loop_unfold in Hrun by exact Hi.
      destruct (outer_body df i results) as [[i' results'] | msg] eqn:Hb;
        [| discriminate Hrun].
      apply (IH i' results'); [| exact Hrun].
      apply (loop_turn df i results); assumption.
    + rewrite outer_loop_done in Hrun by exact Hi. inversion Hrun; subst.
      exists i. split; assumption.
Qed.

(** Past the last marker row of [cat] the entry of [cat] is left alone. *)
Lemma outer_loop_keeps_entry df cat i m :
  (forall i', i < i' -> ~ marker_row df i' cat) ->
  is_target cat = true ->
  forall fuel j results,
  loop_state df j results ->
  i < j ->
  outer_loop fuel df j results = Some (Returned m) ->
  dict_get cat m = dict_get cat results.
Proof.
  intros Hlast Hcat.
  induction fuel as [| fuel IH]; intros j results Hs Hj Hrun.
  - destruct (Nat.lt_ge_cases j (nrows df)) as [Hn | Hn].
    + cbn [outer_loop] in Hrun. apply Nat.ltb_lt in Hn. rewrite Hn in Hrun.
      discriminate Hrun.
    + rewrite outer_loop_done in Hrun by exact Hn. inversion Hrun. reflexivity.
  - destruct (Nat.lt_ge_cases j (nrows df)) as [Hn | Hn].
    + rewrite outer_loop_unfold in Hrun by exact Hn.
      destruct (outer_body df j results) as [[j' results'] | msg] eqn:Hb;
        [| discriminate Hrun].
      pose proof (outer_body_advances df j results j' results' Hn Hb) as Hadv.
      rewrite (IH j' results');
        [| apply (loop_turn df j results); assumption | lia | exact Hrun].
      destruct (is_target (cell_str (at_ df j 1))) eqn:Ht.
      * destruct (choose_column df j (cell_str (at_ df j 1)))
          as [c | msg] eqn:Hc.
        -- rewrite (outer_body_run _ _ _ _ Ht Hc) in Hb. inversion Hb; subst.
           apply dict_get_set_other. intros Heq.
           apply (Hlast j Hj). unfold marker_row. split_all.
           ++ exists results. exact Hs.
           ++ exact Hn.
           ++ exact Heq.
           ++ exact Hcat.
        -- rewrite (outer_body_raises _ _ _ _ Ht Hc) in Hb. discriminate Hb.
      * rewrite (outer_body_other _ _ _ Ht) in Hb. inversion Hb. reflexivity.
    + rewrite outer_loop_done in Hrun by exact Hn. inversion Hrun. reflexivity.
Qed.

(** C9, as the code has it.  When [read_legend] returns a mapping and
    the outer loop stops on marker rows of category [cat], the last of
    them being row [i], the mapping has exactly one entry for [cat] and
    its list is the one the run of row [i] collected.  A cell of the key
    column that names [cat] inside the run of another marker is read as
    a value or passed over: it is no marker row and starts no run. *)
Theorem last_marker_row_wins
    (df : DataFrame) (cat : string) (i : nat) (m : legend) :
  read_legend df = Some (Returned m) ->
  marker_row df i cat ->
  (forall i', i < i' -> ~ marker_row df i' cat) ->
  count_occ string_dec (keys m) cat = 1
  /\ exists c,
       choose_column df i cat = Returned c
       /\ dict_get cat m = Some (fst (scan_run df cat c i)).
Proof.
  intros Hret Hmark Hlast.
  assert (2 <= ncols df) as Hc.
  { unfold read_legend, read_legend_fuel in Hret.
    destruct (ncols df <? 2) eqn:E; [discriminate Hret |].
    apply Nat.ltb_ge in E. exact E. }
  destruct Hmark as [[results Hs] [Hi [Hkey Ht]]].
  destruct (loop_state_continues df i results Hc Hs) as [fuel [Hf Hrun]].
  rewrite Hret in Hrun.
  destruct fuel as [| fuel]; [lia |].
  pose proof Hrun as Hrun0.
  rewrite outer_loop_unfold in Hrun by exact Hi.
  rewrite <- Hkey in Ht.
  destruct (choose_column df i (cell_str (at_ df i 1))) as [c | msg] eqn:Hcol.
  - rewrite (outer_body_run _ _ _ _ Ht Hcol) in Hrun.
    rewrite Hkey in *.
    assert (dict_get cat m = Some (fst (scan_run df cat c i))) as Hget.
    { rewrite (outer_loop_keeps_entry df cat i m Hlast Ht fuel
                 (snd (scan_run df cat c i))
                 (dict_set cat (fst (scan_run df cat c i)) results));
        [apply dict_get_set_same | | | exact Hrun].
      - apply (loop_turn df i results); [exact Hs | exact Hi |].
        rewrite (outer_body_run df i results c); rewrite ?Hkey; auto.
      - destruct (scan_run_stretch df cat c i Hi) as [k [Hk _]].
        rewrite Hk. simpl. lia. }
    split.
    + destruct (outer_loop_last_state df m _ _ _ Hs Hrun0) as [i' [_ Hs']].
      apply NoDup_count_occ'.
      * apply (loop_state_nodup df i' m). exact Hs'.
      * apply (dict_get_in_keys _ _ _ Hget).
    + exists c. split; [exact Hcol | exact Hget].
  - rewrite (outer_body_raises _ _ _ _ Ht Hcol) in Hrun. discriminate Hrun.
Qed.

Lemma last_marker_row_wins_witness :
  count_occ string_dec (keys [("Device Name", ["B"])]) "Device Name" = 1
  /\ exists c,
       choose_column
         (mkFrame 2 [[CNaN; CStr "Device Name"]; [CNaN; CStr "A"]; [CNaN; CNaN];
                     [CNaN; CStr "Device Name"]; [CNaN; CStr "B"]; [CNaN; CNaN]])
         3 "Device Name" = Returned c
       /\ dict_get "Device Name" [("Device Name", ["B"])]
          = Some (fst (scan_run
               (mkFrame 2 [[CNaN; CStr "Device Name"]; [CNaN; CStr "A"];
                           [CNaN; CNaN]; [CNaN; CStr "Device Name"];
                           [CNaN; CStr "B"]; [CNaN; CNaN]])
               "Device Name" c 3)).
Proof.
  apply (last_marker_row_wins
           (mkFrame 2 [[CNaN; CStr "Device Name"]; [CNaN; CStr "A"]; [CNaN; CNaN];
                       [CNaN; CStr "Device Name"]; [CNaN; CStr "B"]; [CNaN; CNaN]])
           "Device Name" 3 [("Device Name", ["B"])]).
  - reflexivity.
  - unfold marker_row.
    split_all; [| unfold nrows; simpl; lia | reflexivity | reflexivity].
    eexists.
    eapply (loop_turn _ 2); [| unfold nrows; simpl; lia | reflexivity].
    eapply (loop_turn _ 0); [apply loop_start | unfold nrows; simpl; lia |].
    reflexivity.
  - intros i' Hi' [_ [Hlt [Hkey _]]].
    unfold nrows in Hlt. simpl in Hlt.
    assert (i' = 4 \/ i' = 5) as [-> | ->] by lia; discriminate Hkey.
Defined.

(** C9 as stated fails.  In the first frame "Coolant" occurs twice in
    the key column, both times inside the run of "Device Name": the
    mapping has no entry for it.  In the second frame "Device Name"
    occurs in rows 0 and 1; row 1 is read as a value of the run of
    row 0, and the list stored is that run, not the one below row 1. *)
Lemma name_repeated_inside_run :
  (count_occ string_dec
     (map cell_str
        (key_column
           (mkFrame 2 [[CNaN; CStr "Device Name"]; [CNaN; CStr "Coolant"];
                       [CNaN; CStr "Coolant"]; [CNaN; CNaN]])))
     "Coolant" = 2
   /\ read_legend
        (mkFrame 2 [[CNaN; CStr "Device Name"]; [CNaN; CStr "Coolant"];
                    [CNaN; CStr "Coolant"]; [CNaN; CNaN]])
      = Some (Returned [("Device Name", ["Coolant"; "Coolant"])])
   /\ dict_get "Coolant" [("Device Name", ["Coolant"; "Coolant"])] = None)
  /\ (count_occ string_dec
        (map cell_str
           (key_column
              (mkFrame 2 [[CNaN; CStr "Device Name"]; [CNaN; CStr "Device Name"];
                          [CNaN; CStr "x"]; [CNaN; CNaN]])))
        "Device Name" = 2
      /\ read_legend
           (mkFrame 2 [[CNaN; CStr "Device Name"]; [CNaN; CStr "Device Name"];
                       [CNaN; CStr "x"]; [CNaN; CNaN]])
         = Some (Returned [("Device Name", ["Device Name"; "x"])])
      /\ fst (scan_run
                (mkFrame 2 [[CNaN; CStr "Device Name"];
                            [CNaN; CStr "Device Name"];
                            [CNaN; CStr "x"]; [CNaN; CNaN]])
                "Device Name" 1 1)
         = ["x"]).
Proof. split_all; reflexivity. Qed.

(** * Further properties *)

(** ** Trimming *)

Lemma rstrip_cons c s :
  PyStr.rstrip (String c s)
  = match PyStr.rstrip s with
    | EmptyString =>
        if PyStr.is_space c then EmptyString else String c EmptyString
    | t => String c t
    end.
Proof. reflexivity. Qed.

Lemma rstrip_cons_kept c s :
  PyStr.rstrip s <> "" \/ PyStr.is_space c = false ->
  PyStr.rstrip (String c s) = String c (PyStr.rstrip s).
Proof.
  intros H. rewrite rstrip_cons.
  destruct (PyStr.rstrip s) as [| a t]; [| reflexivity].
  destruct H as [H | H]; [contradiction H; reflexivity |].
  rewrite H. reflexivity.
Qed.

Lemma rstrip_idem s : PyStr.rstrip (PyStr.rstrip s) = PyStr.rstrip s.
Proof.
  induction s as [| c s IH]; [reflexivity |].
  rewrite rstrip_cons.
  destruct (PyStr.rstrip s) as [| a t] eqn:E.
  - destruct (PyStr.is_space c) eqn:Hc; [reflexivity |].
    rewrite rstrip_cons. cbn [PyStr.rstrip]. rewrite Hc. reflexivity.
  - rewrite rstrip_cons, IH. reflexivity.
Qed.

Lemma lstrip_no_lead s : no_lead (PyStr.lstrip s).
Proof.
  induction s as [| c s IH]; simpl; [exact I |].
  destruct (PyStr.is_space c) eqn:Hc; [exact IH | exact Hc].
Qed.

Lemma lstrip_fixed s : no_lead s -> PyStr.lstrip s = s.
Proof.
  destruct s as [| c s]; simpl; [reflexivity |].
  intros H. rewrite H. reflexivity.
Qed.

Lemma rstrip_no_lead s : no_lead s -> no_lead (PyStr.rstrip s).
Proof.
  destruct s as [| c s]; [intros _; exact I |].
  intros H. simpl in H. rewrite rstrip_cons.
  destruct (PyStr.rstrip s); [rewrite H |]; exact H.
Qed.

Lemma strip_no_lead s : no_lead (PyStr.strip s).
Proof. apply rstrip_no_lead, lstrip_no_lead. Qed.

Lemma strip_idem s : PyStr.strip (PyStr.strip s) = PyStr.strip s.
Proof.
  unfold PyStr.strip at 1.
  rewrite (lstrip_fixed _ (strip_no_lead s)).
  unfold PyStr.strip. apply rstrip_idem.
Qed.

Lemma strip_rstrip s : PyStr.rstrip (PyStr.strip s) = PyStr.strip s.
Proof. unfold PyStr.strip. apply rstrip_idem. Qed.

Lemma str_app_assoc (a b c : string) : ((a ++ b) ++ c = a ++ (b ++ c))%string.
Proof. induction a as [| x a IH]; simpl; [| rewrite IH]; reflexivity. Qed.

Lemma rstrip_app a b :
  PyStr.rstrip b <> "" ->
  PyStr.rstrip (a ++ b) = (a ++ PyStr.rstrip b)%string.
Proof.
  intros Hb. induction a as [| c a IH]; [reflexivity |].
  cbn [append]. rewrite rstrip_cons_kept; rewrite IH.
  - reflexivity.
  - left. destruct a; [exact Hb | discriminate].
Qed.

(** ** The mapping returned *)

Lemma read_legend_returned_state df m :
  read_legend df = Some (Returned m) ->
  2 <= ncols df /\ exists i, nrows df <= i /\ loop_state df i m.
Proof.
  intros Hret. unfold read_legend, read_legend_fuel in Hret.
  destruct (ncols df <? 2) eqn:E; [discriminate Hret |].
  apply Nat.ltb_ge in E. split; [exact E |].
  apply (outer_loop_last_state df m (nrows df) 0 []);
    [apply loop_start | exact Hret].
Qed.

Lemma outer_body_inv df i results :
  (is_target (cell_str (at_ df i 1)) = false
   /\ outer_body df i results = Returned (i + 1, results))
  \/ (is_target (cell_str (at_ df i 1)) = true
      /\ mem (cell_str (at_ df i 1)) TARGET_WITH_ABBREVIATION = true
      /\ abbrev_index (row_values df i) = None
      /\ outer_body df i results = Raised (msg_no_abbreviation i))
  \/ (is_target (cell_str (at_ df i 1)) = true
      /\ exists c,
           choose_column df i (cell_str (at_ df i 1)) = Returned c
           /\ outer_body df i results
              = Returned (snd (scan_run df (cell_str (at_ df i 1)) c i),
                          dict_set (cell_str (at_ df i 1))
                            (fst (scan_run df (cell_str (at_ df i 1)) c i))
                            results)).
Proof.
  destruct (is_target (cell_str (at_ df i 1))) eqn:Ht.
  - right.
    destruct (choose_column df i (cell_str (at_ df i 1))) as [c | msg] eqn:Hc.
    + right. split; [reflexivity |]. exists c.
      split; [reflexivity | apply outer_body_run; assumption].
    + left. pose proof Hc as Hc'. unfold choose_column in Hc'.
      destruct (mem (cell_str (at_ df i 1)) TARGET_WITH_ABBREVIATION);
        [| discriminate Hc'].
      destruct (abbrev_index (row_values df i)); [discriminate Hc' |].
      inversion Hc'; subst msg.
      split_all; try reflexivity.
      apply outer_body_raises; assumption.
  - left. split; [reflexivity | apply outer_body_other; exact Ht].
Qed.

Lemma in_dict_set k vals k' v' d :
  In (k, vals) (dict_set k' v' d) ->
  (k = k' /\ vals = v') \/ In (k, vals) d.
Proof.
  induction d as [| [k0 v0] d IH]; simpl.
  - intros [H | []]. inversion H. left. split; reflexivity.
  - destruct (k0 =? k')%string.
    + intros [H | H]; [inversion H; left; split; reflexivity |].
      right. right. exact H.
    + intros [H | H]; [right; left; exact H |].
      destruct (IH H) as [Heq | Hin]; [left; exact Heq | right; right; exact Hin].
Qed.

Lemma in_keys_dict_set k k' v' d :
  In k (keys (dict_set k' v' d)) -> k = k' \/ In k (keys d).
Proof.
  unfold keys. intros H. apply in_map_iff in H.
  destruct H as [[k0 vals] [Hk Hin]]. simpl in Hk. subst k0.
  destruct (in_dict_set _ _ _ _ _ Hin) as [[Heq _] | Hin'].
  - left. exact Heq.
  - right. apply in_map_iff. exists (k, vals). split; [reflexivity | exact Hin'].
Qed.

(** An invariant of the entries: what holds of every list a run can
    collect holds of every list of every state of the loop. *)
Lemma loop_state_entries df (P : string -> list string -> Prop) :
  (forall i results c,
     loop_state df i results -> i < nrows df ->
     is_target (cell_str (at_ df i 1)) = true ->
     choose_column df i (cell_str (at_ df i 1)) = Returned c ->
     P (cell_str (at_ df i 1)) (fst (scan_run df (cell_str (at_ df i 1)) c i))) ->
  forall i results,
  loop_state df i results ->
  forall k vals, In (k, vals) results -> P k vals.
Proof.
  intros Hrun i results Hs.
  induction Hs as [| i results i' results' Hs IH Hi Hb]; intros k vals Hin.
  - destruct Hin.
  - destruct (outer_body_inv df i results)
      as [[_ Hb'] | [[_ [_ [_ Hb']]] | [Ht [c [Hc Hb']]]]];
      rewrite Hb' in Hb; inversion Hb; subst.
    + apply IH. exact Hin.
    + destruct (in_dict_set _ _ _ _ _ Hin) as [[-> ->] | Hin'].
      * apply (Hrun i results c); assumption.
      * apply IH. exact Hin'.
Qed.

Lemma is_target_not_skip k : is_target k = true -> mem k SKIP = false.
Proof. unfold is_target. intros H. each_member H. Qed.

(** X1. The keys of the mapping returned are pairwise distinct, and each is
    the name of a category read on a marker row of the table: never a
    name of the skip set, never any other text of the key column. *)
Theorem returned_keys_are_markers (df : DataFrame) (m : legend) :
  read_legend df = Some (Returned m) ->
  NoDup (keys m)
  /\ forall k, In k (keys m) ->
       (exists i, marker_row df i k)
       /\ is_target k = true
       /\ mem k SKIP = false.
Proof.
  intros Hret.
  destruct (read_legend_returned_state df m Hret) as [_ [i [_ Hs]]].
  split; [apply (loop_state_nodup df i m Hs) |].
  intros k Hk. unfold keys in Hk. apply in_map_iff in Hk.
  destruct Hk as [[k0 vals] [Hk0 Hin]]. simpl in Hk0. subst k0.
  assert (exists i0, marker_row df i0 k) as Hmark.
  { apply (loop_state_entries df (fun k _ => exists i0, marker_row df i0 k))
      with (i := i) (results := m) (vals := vals); [| exact Hs | exact Hin].
    intros i0 results c Hs0 Hi0 Ht _. exists i0. unfold marker_row.
    split_all; [exists results; exact Hs0 | exact Hi0 | reflexivity | exact Ht]. }
  split_all; [exact Hmark | |].
  - destruct Hmark as [i0 [_ [_ [_ Ht]]]]. exact Ht.
  - destruct Hmark as [i0 [_ [_ [_ Ht]]]]. apply is_target_not_skip. exact Ht.
Qed.

Lemma returned_keys_are_markers_witness :
  NoDup (keys [("Device Name", ["Alpha"]); ("Coolant", ["X"])])
  /\ forall k, In k (keys [("Device Name", ["Alpha"]); ("Coolant", ["X"])]) ->
       (exists i,
          marker_row
            (mkFrame 2 [[CNaN; CStr "Device Name"]; [CNaN; CStr "Alpha"];
                        [CNaN; CNaN]; [CNaN; CStr "CPU model"];
                        [CNaN; CStr "Coolant"]; [CNaN; CStr "X"]]) i k)
       /\ is_target k = true
       /\ mem k SKIP = false.
Proof.
  apply (returned_keys_are_markers
           (mkFrame 2 [[CNaN; CStr "Device Name"]; [CNaN; CStr "Alpha"];
                       [CNaN; CNaN]; [CNaN; CStr "CPU model"];
                       [CNaN; CStr "Coolant"]; [CNaN; CStr "X"]])).
  reflexivity.
Defined.

Lemma in_kept o cells :
  In o (kept cells) ->
  exists v, In v cells /\ is_blank v = false /\ o = PyStr.strip (str v).
Proof.
  unfold kept. intros H. apply in_map_iff in H.
  destruct H as [v [Ho Hv]]. apply filter_In in Hv. destruct Hv as [Hin Hf].
  apply andb_true_iff in Hf. destruct Hf as [Hnb _].
  exists v. split_all; [exact Hin | | symmetry; exact Ho].
  destruct (is_blank v); [discriminate Hnb | reflexivity].
Qed.

(** X2. Every option of every list of the mapping returned is a non-empty
    string with no white space around it. *)
Theorem returned_options_are_trimmed (df : DataFrame) (m : legend) :
  read_legend df = Some (Returned m) ->
  forall k vals o,
    In (k, vals) m -> In o vals -> o <> "" /\ PyStr.strip o = o.
Proof.
  intros Hret k vals o Hin Ho.
  destruct (read_legend_returned_state df m Hret) as [_ [i [_ Hs]]].
  revert o Ho.
  apply (loop_state_entries df
           (fun _ vals => forall o, In o vals -> o <> "" /\ PyStr.strip o = o))
    with (i := i) (results := m) (k := k); [| exact Hs | exact Hin].
  intros i0 results c _ Hi0 _ _ o Ho.
  destruct (scan_run_stretch df (cell_str (at_ df i0 1)) c i0 Hi0)
    as [n [Hrun _]].
  rewrite Hrun in Ho. cbn [fst] in Ho.
  destruct (in_kept _ _ Ho) as [v [_ [Hnb ->]]].
  split; [| apply strip_idem].
  unfold is_blank in Hnb. apply orb_false_iff in Hnb. destruct Hnb as [_ Hne].
  apply String.eqb_neq in Hne. exact Hne.
Qed.

Lemma returned_options_are_trimmed_witness :
  "12.5" <> "" /\ PyStr.strip "12.5" = "12.5".
Proof.
  refine (returned_options_are_trimmed
            (mkFrame 3 [[CNaN; CStr "Pump"; CStr "Abbreviation "];
                        [CNaN; CStr "Big pump"; CStr "  BP"];
                        [CNaN; CStr "Other pump"; COther "12.5"]])
            [("Pump", ["BP"; "12.5"])] _ "Pump" ["BP"; "12.5"] "12.5" _ _).
  - reflexivity.
  - left. reflexivity.
  - right. left. reflexivity.
Defined.

(** ** The errors raised *)

Lemma outer_loop_raised df msg : forall fuel i results,
  loop_state df i results ->
  outer_loop fuel df i results = Some (Raised msg) ->
  exists i0 cat,
    marker_row df i0 cat
    /\ mem cat TARGET_WITH_ABBREVIATION = true
    /\ abbrev_index (row_values df i0) = None
    /\ msg = msg_no_abbreviation i0.
Proof.
  induction fuel as [| fuel IH]; intros i results Hs Hrun.
  - destruct (Nat.lt_ge_cases i (nrows df)) as [Hi | Hi].
    + cbn [outer_loop] in Hrun. apply Nat.ltb_lt in Hi. rewrite Hi in Hrun.
      discriminate Hrun.
    + rewrite outer_loop_done in Hrun by exact Hi. discriminate Hrun.
  - destruct (Nat.lt_ge_cases i (nrows df)) as [Hi | Hi].
    + rewrite outer_loop_unfold in Hrun by exact Hi.
      destruct (outer_body_inv df i results)
        as [[_ Hb] | [[Ht [Hw [Ha Hb]]] | [_ [c [_ Hb]]]]].
      * rewrite Hb in Hrun. apply (IH (i + 1) results); [| exact Hrun].
        apply (loop_turn df i results); assumption.
      * rewrite Hb in Hrun. inversion Hrun.
        exists i, (cell_str (at_ df i 1)). unfold marker_row.
        split_all; try assumption; try reflexivity.
        exists results. exact Hs.
      * rewrite Hb in Hrun.
        apply (IH _ _ (loop_turn df i results _ _ Hs Hi Hb) Hrun).
    + rewrite outer_loop_done in Hrun by exact Hi. discriminate Hrun.
Qed.

(** Once the sheet is read into a frame, the parse raises in two cases
    only: the frame has fewer than two columns, or the outer loop comes
    to the marker row of a with-abbreviation category that has no
    abbreviation header; the message is the one of the case, with the
    index of that row. *)
Theorem read_legend_raises_iff (df : DataFrame) (msg : string) :
  read_legend df = Some (Raised msg)
  <-> (ncols df < 2 /\ msg = msg_two_columns)
      \/ (2 <= ncols df
          /\ exists i cat,
               marker_row df i cat
               /\ mem cat TARGET_WITH_ABBREVIATION = true
               /\ abbrev_index (row_values df i) = None
               /\ msg = msg_no_abbreviation i).
Proof.
  split.
  - intros Hr. unfold read_legend, read_legend_fuel in Hr.
    destruct (ncols df <? 2) eqn:E.
    + left. apply Nat.ltb_lt in E. inversion Hr. split; [exact E | reflexivity].
    + right. apply Nat.ltb_ge in E. split; [exact E |].
      apply (outer_loop_raised df msg (nrows df) 0 []);
        [apply loop_start | exact Hr].
  - intros [[Hc ->] | [Hc [i [cat [Hmark [Hw [Ha ->]]]]]]].
    + unfold read_legend, read_legend_fuel.
      apply Nat.ltb_lt in Hc. rewrite Hc. reflexivity.
    + destruct Hmark as [[results Hs] [Hi [Hkey Ht]]].
      destruct (loop_state_continues df i results Hc Hs) as [fuel [Hf Hrun]].
      destruct fuel as [| fuel]; [lia |].
      rewrite <- Hrun, outer_loop_unfold by exact Hi.
      rewrite (outer_body_raises df i results (msg_no_abbreviation i));
        [reflexivity | rewrite Hkey; exact Ht |].
      rewrite Hkey. unfold choose_column. rewrite Hw, Ha. reflexivity.
Qed.

(** ** The empty mapping *)

Lemma outer_loop_no_target df :
  (forall j, j < nrows df -> is_target (cell_str (at_ df j 1)) = false) ->
  forall fuel i results,
  nrows df - i <= fuel ->
  outer_loop fuel df i results = Some (Returned results).
Proof.
  intros Hno. induction fuel as [| fuel IH]; intros i results Hf.
  - apply outer_loop_done. lia.
  - destruct (Nat.lt_ge_cases i (nrows df)) as [Hi | Hi].
    + rewrite outer_loop_unfold by exact Hi.
      rewrite outer_body_other by (apply Hno; exact Hi).
      apply IH. lia.
    + apply outer_loop_done. exact Hi.
Qed.

Lemma loop_state_before_target df k :
  k <= nrows df ->
  (forall j, j < k -> is_target (cell_str (at_ df j 1)) = false) ->
  loop_state df k [].
Proof.
  induction k as [| k IH]; intros Hk Hno.
  - apply loop_start.
  - apply (loop_turn df k [] (S k) []).
    + apply IH; [lia |]. intros j Hj. apply Hno. lia.
    + lia.
    + rewrite outer_body_other by (apply Hno; lia).
      rewrite Nat.add_1_r. reflexivity.
Qed.

Lemma dict_set_not_empty k v d : dict_set k v d <> [].
Proof.
  destruct d as [| [k0 v0] d]; simpl; [discriminate |].
  destruct (k0 =? k)%string; discriminate.
Qed.

Lemma outer_loop_not_empty df m : forall fuel i results,
  results <> [] ->
  outer_loop fuel df i results = Some (Returned m) ->
  m <> [].
Proof.
  induction fuel as [| fuel IH]; intros i results Hne Hrun.
  - destruct (Nat.lt_ge_cases i (nrows df)) as [Hi | Hi].
    + cbn [outer_loop] in Hrun. apply Nat.ltb_lt in Hi. rewrite Hi in Hrun.
      discriminate Hrun.
    + rewrite outer_loop_done in Hrun by exact Hi.
      inversion Hrun; subst. exact Hne.
  - destruct (Nat.lt_ge_cases i (nrows df)) as [Hi | Hi].
    + rewrite outer_loop_unfold in Hrun by exact Hi.
      destruct (outer_body_inv df i results)
        as [[_ Hb] | [[_ [_ [_ Hb]]] | [_ [c [_ Hb]]]]];
        rewrite Hb in Hrun.
      * apply (IH _ _ Hne Hrun).
      * discriminate Hrun.
      * apply (IH _ _ (dict_set_not_empty _ _ _) Hrun).
    + rewrite outer_loop_done in Hrun by exact Hi.
      inversion Hrun; subst. exact Hne.
Qed.

(** X4. [read_legend] returns the empty mapping exactly when the frame has
    at least two columns and no cell of its key column reads, trimmed,
    as a category name; an empty frame is such a frame. *)
Theorem empty_mapping_iff_no_category (df : DataFrame) :
  read_legend df = Some (Returned [])
  <-> 2 <= ncols df
      /\ forall v, In v (key_column df) -> is_target (cell_str v) = false.
Proof.
  split.
  - intros Hret.
    destruct (read_legend_returned_state df [] Hret) as [Hc _].
    split; [exact Hc |].
    apply (first_index_none (fun v => is_target (cell_str v))).
    destruct (first_index (fun v => is_target (cell_str v)) (key_column df))
      as [k |] eqn:Hfirst; [exfalso | reflexivity].
    apply (first_index_some _ CNaN) in Hfirst.
    destruct Hfirst as [Hk [Ht Hmin]].
    unfold key_column in *. rewrite column_length in Hk.
    rewrite <- at_column in Ht.
    assert (loop_state df k []) as Hs.
    { apply loop_state_before_target; [lia |].
      intros j Hj. rewrite at_column. apply Hmin. exact Hj. }
    destruct (loop_state_continues df k [] Hc Hs) as [fuel [Hf Hrun]].
    rewrite Hret in Hrun.
    destruct fuel as [| fuel]; [lia |].
    rewrite outer_loop_unfold in Hrun by exact Hk.
    destruct (outer_body_inv df k [])
      as [[Hnt _] | [[_ [_ [_ Hb]]] | [_ [c [_ Hb]]]]].
    + rewrite Hnt in Ht. discriminate Ht.
    + rewrite Hb in Hrun. discriminate Hrun.
    + rewrite Hb in Hrun.
      apply (outer_loop_not_empty df [] _ _ _ (dict_set_not_empty _ _ _) Hrun).
      reflexivity.
  - intros [Hc Hno]. unfold read_legend, read_legend_fuel.
    apply Nat.ltb_ge in Hc. rewrite Hc.
    apply outer_loop_no_target; [| lia].
    intros j Hj. apply Hno. rewrite at_column.
    apply nth_In. unfold key_column. rewrite column_length. exact Hj.
Qed.

(** ** A marker on the last row *)

(** X6. A category marker on the last row of the table has nothing below
    it: the entry of the category in the mapping returned is the empty
    list, whatever an earlier marker of the same name collected. *)
Theorem marker_on_last_row_gives_empty_list
    (df : DataFrame) (m : legend) (i : nat) (cat : string) :
  read_legend df = Some (Returned m) ->
  marker_row df i cat ->
  i + 1 = nrows df ->
  dict_get cat m = Some [].
Proof.
  intros Hret [[results Hs] [Hi [Hkey Ht]]] Hlast.
  destruct (read_legend_returned_state df m Hret) as [Hc _].
  destruct (loop_state_continues df i results Hc Hs) as [fuel [Hf Hrun]].
  rewrite Hret in Hrun.
  destruct fuel as [| fuel]; [lia |].
  rewrite outer_loop_unfold in Hrun by exact Hi.
  destruct (outer_body_inv df i results)
    as [[Hnt _] | [[_ [_ [_ Hb]]] | [_ [c [_ Hb]]]]].
  - rewrite Hkey, Ht in Hnt. discriminate Hnt.
  - rewrite Hb in Hrun. discriminate Hrun.
  - rewrite Hb, Hkey in Hrun. unfold scan_run in Hrun.
    replace (nrows df - (i + 1)) with 0 in Hrun by lia.
    cbn [inner_loop fst snd] in Hrun.
    rewrite outer_loop_done in Hrun by lia.
    inversion Hrun. apply dict_get_set_same.
Qed.

Lemma read_legend_raises_iff_witness :
  (ncols (mkFrame 3 [[CNaN; CStr "CPU model"; CNaN];
                     [CNaN; CStr "Core Version"; CStr "Short"];
                     [CNaN; CStr "Core one"; CStr "C1"]]) < 2
   /\ "No 'Abbreviation' column found in row 1." = msg_two_columns)
  \/ (2 <= ncols (mkFrame 3 [[CNaN; CStr "CPU model"; CNaN];
                             [CNaN; CStr "Core Version"; CStr "Short"];
                             [CNaN; CStr "Core one"; CStr "C1"]])
      /\ exists i cat,
           marker_row (mkFrame 3 [[CNaN; CStr "CPU model"; CNaN];
                                  [CNaN; CStr "Core Version"; CStr "Short"];
                                  [CNaN; CStr "Core one"; CStr "C1"]]) i cat
           /\ mem cat TARGET_WITH_ABBREVIATION = true
           /\ abbrev_index
                (row_values (mkFrame 3 [[CNaN; CStr "CPU model"; CNaN];
                                        [CNaN; CStr "Core Version"; CStr "Short"];
                                        [CNaN; CStr "Core one"; CStr "C1"]]) i)
              = None
           /\ "No 'Abbreviation' column found in row 1."
              = msg_no_abbreviation i).
Proof.
  apply (proj1 (read_legend_raises_iff _ _)). reflexivity.
Defined.

Lemma empty_mapping_iff_no_category_witness :
  read_legend (mkFrame 2 [[CNaN; CStr "OCCT Version"]; [CNaN; COther "7"];
                          [CNaN; CNaN]; [CStr "Coolant"; CStr "device name"]])
  = Some (Returned []).
Proof.
  apply (proj2 (empty_mapping_iff_no_category _)).
  split; [simpl; lia |].
  intros v Hv. simpl in Hv.
  repeat (destruct Hv as [Hv | Hv]; [subst v; reflexivity |]).
  contradiction.
Defined.

Lemma marker_on_last_row_gives_empty_list_witness :
  dict_get "Device Name" [("Device Name", [])] = Some [].
Proof.
  apply (marker_on_last_row_gives_empty_list
           (mkFrame 2 [[CNaN; CStr "Device Name"]; [CNaN; CStr "A"];
                       [CNaN; CNaN]; [CNaN; CStr "Device Name"]])
           [("Device Name", [])] 3 "Device Name").
  - reflexivity.
  - unfold marker_row.
    split_all; [| unfold nrows; simpl; lia | reflexivity | reflexivity].
    eexists.
    eapply (loop_turn _ 2); [| unfold nrows; simpl; lia | reflexivity].
    eapply (loop_turn _ 0); [apply loop_start | unfold nrows; simpl; lia |].
    reflexivity.
  - reflexivity.
Defined.

(** ** What the parse depends on *)

Lemma key_column_at df1 df2 i :
  key_column df1 = key_column df2 -> at_ df1 i 1 = at_ df2 i 1.
Proof.
  intros Hkey. rewrite !at_column. fold (key_column df1) (key_column df2).
  rewrite Hkey. reflexivity.
Qed.

Lemma key_column_rows df1 df2 :
  key_column df1 = key_column df2 -> nrows df1 = nrows df2.
Proof.
  intros Hkey. rewrite <- (column_length df1 1), <- (column_length df2 1).
  fold (key_column df1) (key_column df2). rewrite Hkey. reflexivity.
Qed.

Lemma outer_body_key_only df1 df2 i results :
  key_column df1 = key_column df2 ->
  i < nrows df1 ->
  mem (cell_str (at_ df1 i 1)) TARGET_WITH_ABBREVIATION = false ->
  outer_body df1 i results = outer_body df2 i results.
Proof.
  intros Hkey Hi Hw.
  pose proof (key_column_at df1 df2 i Hkey) as Hat.
  pose proof (key_column_rows df1 df2 Hkey) as Hn.
  destruct (is_target (cell_str (at_ df1 i 1))) eqn:Ht.
  - rewrite (outer_body_run df1 i results 1);
      [| exact Ht | unfold choose_column; rewrite Hw; reflexivity].
    rewrite Hat in Ht, Hw.
    rewrite (outer_body_run df2 i results 1);
      [| exact Ht | unfold choose_column; rewrite Hw; reflexivity].
    rewrite <- Hat.
    rewrite (scan_run_cells df1) by exact Hi.
    rewrite (scan_run_cells df2) by (rewrite <- Hn; exact Hi).
    unfold cells_below. fold (key_column df1) (key_column df2).
    rewrite Hkey. reflexivity.
  - rewrite (outer_body_other df1) by exact Ht.
    rewrite Hat in Ht.
    rewrite (outer_body_other df2) by exact Ht. reflexivity.
Qed.

Lemma outer_loop_key_only df1 df2 :
  key_column df1 = key_column df2 ->
  (forall v, In v (key_column df1) ->
             mem (cell_str v) TARGET_WITH_ABBREVIATION = false) ->
  forall fuel i results,
  outer_loop fuel df1 i results = outer_loop fuel df2 i results.
Proof.
  intros Hkey Hw.
  pose proof (key_column_rows df1 df2 Hkey) as Hn.
  induction fuel as [| fuel IH]; intros i results.
  - cbn [outer_loop]. rewrite Hn. reflexivity.
  - destruct (Nat.lt_ge_cases i (nrows df1)) as [Hi | Hi].
    + rewrite (outer_loop_unfold fuel df1) by exact Hi.
      rewrite (outer_loop_unfold fuel df2) by (rewrite <- Hn; exact Hi).
      rewrite <- (outer_body_key_only df1 df2 i results Hkey Hi).
      * destruct (outer_body df1 i results) as [[i' results'] | msg];
          [apply IH | reflexivity].
      * apply Hw. rewrite at_column. apply nth_In.
        unfold key_column. rewrite column_length. exact Hi.
    + rewrite (outer_loop_done _ df1) by exact Hi.
      rewrite (outer_loop_done _ df2) by (rewrite <- Hn; exact Hi).
      reflexivity.
Qed.

(** X5. When no cell of the key column names a with-abbreviation category,
    [read_legend] reads the key column only: two frames of at least two
    columns with the same key column give the same result, whatever
    their other columns hold. *)
Theorem key_column_decides_without_abbreviation (df1 df2 : DataFrame) :
  2 <= ncols df1 ->
  2 <= ncols df2 ->
  key_column df1 = key_column df2 ->
  (forall v, In v (key_column df1) ->
             mem (cell_str v) TARGET_WITH_ABBREVIATION = false) ->
  read_legend df1 = read_legend df2.
Proof.
  intros Hc1 Hc2 Hkey Hw.
  unfold read_legend, read_legend_fuel.
  apply Nat.ltb_ge in Hc1, Hc2.
  rewrite Hc1, Hc2, <- (key_column_rows df1 df2 Hkey).
  apply outer_loop_key_only; assumption.
Qed.

Lemma key_column_decides_without_abbreviation_witness :
  read_legend (mkFrame 2 [[CNaN; CStr "Coolant"]; [CNaN; CStr "Water"];
                          [CNaN; CStr ""]])
  = read_legend (mkFrame 3 [[CStr "x"; CStr "Coolant"; CStr "Abbreviation"];
                            [COther "1"; CStr "Water"; CStr "W"];
                            [CStr "?"; CStr ""; CStr "G"]]).
Proof.
  apply key_column_decides_without_abbreviation.
  - simpl. lia.
  - simpl. lia.
  - reflexivity.
  - intros v Hv. simpl in Hv.
    repeat (destruct Hv as [Hv | Hv]; [subst v; reflexivity |]).
    contradiction.
Defined.

(** ** The folder name *)

Lemma join_cons sep x rest :
  rest <> [] -> PyStr.join sep (x :: rest) = (x ++ sep ++ PyStr.join sep rest)%string.
Proof. destruct rest; [intros H; contradiction H; reflexivity | reflexivity]. Qed.

Lemma snoc2_not_nil {A : Type} (xs : list A) (a b : A) : xs ++ [a; b] <> [].
Proof. destruct xs; discriminate. Qed.

(** X9. The white space around the time and the server is of no account:
    a token and its trimmed form give the same name. *)
Theorem folder_name_ignores_token_padding
    (selections : list string) (time_str server_str : string) :
  folder_name selections time_str server_str
  = folder_name selections (PyStr.strip time_str) (PyStr.strip server_str).
Proof. unfold folder_name. rewrite !strip_idem. reflexivity. Qed.

(** X10. The name does not keep the selections apart: a selection that holds
    an underscore gives the same name as its two halves given as two
    selections. *)
Theorem folder_name_merges_underscores
    (a b : string) (rest : list string) (time_str server_str : string) :
  folder_name ((a ++ "_" ++ b)%string :: rest) time_str server_str
  = folder_name (a :: b :: rest) time_str server_str.
Proof.
  unfold folder_name. cbn [app].
  rewrite !join_cons by (try discriminate; apply snoc2_not_nil).
  rewrite !str_app_assoc. reflexivity.
Qed.

Lemma rstrip_underscore_app x r :
  PyStr.rstrip r = r ->
  PyStr.rstrip (x ++ "_" ++ r) = (x ++ "_" ++ r)%string
  /\ (x ++ "_" ++ r)%string <> "".
Proof.
  intros Hr.
  assert (PyStr.rstrip ("_" ++ r) = ("_" ++ r)%string) as Hu.
  { cbn [append]. rewrite rstrip_cons_kept by (right; reflexivity).
    rewrite Hr. reflexivity. }
  split.
  - rewrite rstrip_app; rewrite Hu; [reflexivity | discriminate].
  - destruct x; discriminate.
Qed.

Lemma folder_name_rstrip selections time_str server_str :
  PyStr.rstrip (folder_name selections time_str server_str)
  = folder_name selections time_str server_str
  /\ folder_name selections time_str server_str <> "".
Proof.
  unfold folder_name. induction selections as [| x rest IH].
  - cbn [app PyStr.join]. apply rstrip_underscore_app, strip_rstrip.
  - cbn [app]. rewrite join_cons by apply snoc2_not_nil.
    apply rstrip_underscore_app. apply IH.
Qed.

(** X11. The name is never empty and never ends in white space, whatever
    the selections and the tokens are. *)
Theorem folder_name_no_trailing_space
    (selections : list string) (time_str server_str : string) :
  folder_name selections time_str server_str <> ""
  /\ PyStr.rstrip (folder_name selections time_str server_str)
     = folder_name selections time_str server_str.
Proof.
  destruct (folder_name_rstrip selections time_str server_str) as [H1 H2].
  split; assumption.
Qed.

(** ** The form and the button *)

Lemma choices_set_new k v (d : choices) :
  ~ In k (map fst d) -> choices_set k v d = d ++ [(k, v)].
Proof.
  induction d as [| [k0 v0] d IH]; intros Hk; simpl; [reflexivity |].
  destruct (String.eqb_spec k0 k) as [-> | Hne].
  - contradiction Hk. left. reflexivity.
  - rewrite IH; [reflexivity |]. intros Hin. apply Hk. right. exact Hin.
Qed.

Lemma form_selections_from picks : forall (OPTIONS : legend) (acc : choices),
  NoDup (map fst acc ++ keys OPTIONS) ->
  fold_left
    (fun selections entry =>
       let label := fst entry in
       choices_set label (selectbox ("" :: snd entry) (picks label)) selections)
    OPTIONS acc
  = acc ++ map (fun e => (fst e, chosen picks e)) OPTIONS.
Proof.
  induction OPTIONS as [| e rest IH]; intros acc Hnd.
  - simpl. rewrite app_nil_r. reflexivity.
  - cbn [fold_left map keys] in *.
    rewrite choices_set_new.
    + rewrite IH.
      * rewrite <- app_assoc. reflexivity.
      * rewrite map_app. cbn [map fst]. rewrite <- app_assoc. exact Hnd.
    + intros Hin. apply NoDup_remove_2 in Hnd. apply Hnd.
      apply in_or_app. left. exact Hin.
Qed.

Lemma form_values OPTIONS picks :
  NoDup (keys OPTIONS) ->
  map snd (form_selections OPTIONS picks) = map (chosen picks) OPTIONS.
Proof.
  intros Hnd. unfold form_selections.
  rewrite form_selections_from by exact Hnd.
  cbn [app]. rewrite map_map. reflexivity.
Qed.

Lemma chosen_placeholder picks e :
  (forall o, In o (snd e) -> o <> "") ->
  ("" =? chosen picks e)%string
  = negb ((1 <=? picks (fst e)) && (picks (fst e) <=? length (snd e))).
Proof.
  intros Hne. unfold chosen, selectbox.
  destruct (picks (fst e)) as [| q]; [reflexivity |].
  cbn [nth]. change (1 <=? S q) with true. cbn [andb].
  destruct (Nat.leb_spec (S q) (length (snd e))) as [Hq | Hq].
  - apply String.eqb_neq. intros Heq.
    apply (Hne (nth q (snd e) "")); [apply nth_In; lia | symmetry; exact Heq].
  - rewrite nth_overflow by lia. reflexivity.
Qed.

Lemma placeholder_among_values OPTIONS picks :
  (forall e, In e OPTIONS -> forall o, In o (snd e) -> o <> "") ->
  mem "" (map (chosen picks) OPTIONS) = negb (complete OPTIONS picks).
Proof.
  unfold mem, complete.
  induction OPTIONS as [| e rest IH]; intros Hne; [reflexivity |].
  cbn [map existsb forallb].
  rewrite IH by (intros e' He'; apply Hne; right; exact He').
  rewrite chosen_placeholder by (apply Hne; left; reflexivity).
  destruct ((1 <=? picks (fst e)) && (picks (fst e) <=? length (snd e)));
    reflexivity.
Qed.

(** What the button does on a form built from options with distinct
    labels and no empty option. *)
Lemma create_clicked_on_form OPTIONS picks time_input server_input :
  NoDup (keys OPTIONS) ->
  (forall e, In e OPTIONS -> forall o, In o (snd e) -> o <> "") ->
  create_clicked (form_selections OPTIONS picks) time_input server_input
  = if complete OPTIONS picks
       && negb (PyStr.strip time_input =? "")%string
       && negb (PyStr.strip server_input =? "")%string
    then CreateFolder
           (folder_name (map (chosen picks) OPTIONS) time_input server_input)
    else Warning "Please complete all selections, time, and server fields.".
Proof.
  intros Hnd Hne. unfold create_clicked.
  rewrite form_values by exact Hnd.
  rewrite placeholder_among_values by exact Hne.
  destruct (complete OPTIONS picks);
    destruct (PyStr.strip time_input =? "")%string;
    destruct (PyStr.strip server_input =? "")%string; reflexivity.
Qed.

Lemma returned_legend_form df m :
  read_legend df = Some (Returned m) ->
  NoDup (keys m)
  /\ (forall e, In e m -> forall o, In o (snd e) -> o <> "" /\ no_lead o).
Proof.
  intros Hret.
  destruct (read_legend_returned_state df m Hret) as [_ [i [_ Hs]]].
  split; [apply (loop_state_nodup df i m Hs) |].
  intros [k vals] Hin. cbn [snd].
  apply (loop_state_entries df
           (fun _ vals => forall o, In o vals -> o <> "" /\ no_lead o))
    with (i := i) (results := m) (k := k); [| exact Hs | exact Hin].
  intros i0 results c _ Hi0 _ _ o Ho.
  destruct (scan_run_stretch df (cell_str (at_ df i0 1)) c i0 Hi0)
    as [n [Hrun _]].
  rewrite Hrun in Ho. cbn [fst] in Ho.
  destruct (in_kept _ _ Ho) as [v [_ [Hnb ->]]].
  split; [| apply strip_no_lead].
  unfold is_blank in Hnb. apply orb_false_iff in Hnb. destruct Hnb as [_ Hne].
  apply String.eqb_neq in Hne. exact Hne.
Qed.

Lemma page_click_returned m picks time_input server_input :
  m <> [] ->
  page_click (Returned m) picks time_input server_input
  = Some (create_clicked (form_selections m picks) time_input server_input).
Proof.
  intros Hne. unfold page_click. cbn [load_options fst].
  destruct m; [contradiction Hne; reflexivity | reflexivity].
Qed.

(** X12. On the legend [read_legend] returns, the button calls
    [create_folder] exactly when every selector is on an option of its
    category and the time and the server are not blank, with the picked
    options in the order of the legend; it warns otherwise.  With an
    empty legend there is no form. *)
Theorem button_on_parsed_legend
    (df : DataFrame) (m : legend) (picks : string -> nat)
    (time_input server_input : string) :
  read_legend df = Some (Returned m) ->
  page_click (Returned m) picks time_input server_input
  = match m with
    | [] => None
    | _ =>
        Some
          (if complete m picks
              && negb (PyStr.strip time_input =? "")%string
              && negb (PyStr.strip server_input =? "")%string
           then CreateFolder
                  (folder_name (map (chosen picks) m) time_input server_input)
           else Warning
                  "Please complete all selections, time, and server fields.")
    end.
Proof.
  intros Hret. destruct (returned_legend_form df m Hret) as [Hnd Hne].
  destruct m as [| e rest] eqn:Em; [reflexivity |]. rewrite <- Em in *.
  rewrite page_click_returned by (rewrite Em; discriminate).
  rewrite create_clicked_on_form;
    [reflexivity | exact Hnd | intros e' He' o Ho; apply (Hne e' He' o Ho)].
Qed.

Lemma button_on_parsed_legend_witness :
  page_click
    (Returned [("Device Name", ["Alpha"; "Beta"]); ("Coolant", ["X"])])
    (fun label => if (label =? "Device Name")%string then 2 else 1)
    " 2025-07-23_14-00 " "Server01 "
  = Some (CreateFolder "Beta_X_2025-07-23_14-00_Server01").
Proof.
  exact (button_on_parsed_legend
           (mkFrame 2 [[CNaN; CStr "Device Name"]; [CNaN; CStr "Alpha"];
                       [CNaN; CStr "Beta"]; [CNaN; CNaN];
                       [CNaN; CStr "Coolant"]; [CNaN; CStr "X"]])
           [("Device Name", ["Alpha"; "Beta"]); ("Coolant", ["X"])]
           (fun label => if (label =? "Device Name")%string then 2 else 1)
           " 2025-07-23_14-00 " "Server01 " eq_refl).
Defined.

(** X13. A category of the legend returned whose list is empty blocks the
    form: its selector has the placeholder only, and the button warns
    whatever is picked and typed. *)
Theorem empty_option_list_blocks_creation
    (df : DataFrame) (m : legend) (k : string) (picks : string -> nat)
    (time_input server_input : string) :
  read_legend df = Some (Returned m) ->
  In (k, []) m ->
  page_click (Returned m) picks time_input server_input
  = Some (Warning "Please complete all selections, time, and server fields.").
Proof.
  intros Hret Hin. destruct (returned_legend_form df m Hret) as [Hnd Hne].
  rewrite page_click_returned by (intros ->; destruct Hin).
  rewrite create_clicked_on_form;
    [| exact Hnd | intros e' He' o Ho; apply (Hne e' He' o Ho)].
  destruct (complete m picks) eqn:E; [exfalso | reflexivity].
  unfold complete in E. rewrite forallb_forall in E.
  specialize (E (k, []) Hin). cbn [fst snd length] in E.
  apply andb_true_iff in E. destruct E as [E1 E2].
  apply Nat.leb_le in E1, E2. lia.
Qed.

Lemma empty_option_list_blocks_creation_witness :
  page_click (Returned [("Device Name", ["A"]); ("Coolant", [])])
    (fun _ => 1) "2025" "srv"
  = Some (Warning "Please complete all selections, time, and server fields.").
Proof.
  refine (empty_option_list_blocks_creation
            (mkFrame 2 [[CNaN; CStr "Device Name"]; [CNaN; CStr "A"];
                        [CNaN; CNaN]; [CNaN; CStr "Coolant"]])
            [("Device Name", ["A"]); ("Coolant", [])] "Coolant"
            (fun _ => 1) "2025" "srv" _ _).
  - reflexivity.
  - right. left. reflexivity.
Defined.

Lemma no_lead_app a b : a <> "" -> no_lead a -> no_lead (a ++ b).
Proof. destruct a; [intros H; contradiction H; reflexivity | intros _ H; exact H]. Qed.

(** X14. The name the button asks [create_folder] for, on the legend
    [read_legend] returns, is not empty and has no white space at
    either end. *)
Theorem created_name_is_trimmed
    (df : DataFrame) (m : legend) (picks : string -> nat)
    (time_input server_input name : string) :
  read_legend df = Some (Returned m) ->
  page_click (Returned m) picks time_input server_input
  = Some (CreateFolder name) ->
  name <> "" /\ PyStr.strip name = name.
Proof.
  intros Hret Hclick. destruct (returned_legend_form df m Hret) as [Hnd Hne].
  destruct m as [| e rest]; [discriminate Hclick |].
  rewrite page_click_returned in Hclick by discriminate.
  rewrite create_clicked_on_form in Hclick;
    [| exact Hnd | intros e' He' o Ho; apply (Hne e' He' o Ho)].
  destruct (complete (e :: rest) picks) eqn:Ec; [| discriminate Hclick].
  destruct (PyStr.strip time_input =? "")%string; [discriminate Hclick |].
  destruct (PyStr.strip server_input =? "")%string; [discriminate Hclick |].
  cbn [andb negb] in Hclick. inversion Hclick as [Hname]. clear Hclick Hname.
  destruct (folder_name_rstrip (map (chosen picks) (e :: rest))
              time_input server_input) as [Hr Hn].
  split; [exact Hn |].
  unfold PyStr.strip. rewrite lstrip_fixed; [exact Hr |].
  (* the name starts with the option picked for the first category *)
  unfold complete in Ec. cbn [forallb] in Ec.
  apply andb_true_iff in Ec. destruct Ec as [Ee _].
  apply andb_true_iff in Ee. destruct Ee as [E1 E2].
  apply Nat.leb_le in E1, E2.
  unfold folder_name. cbn [map app].
  rewrite join_cons by apply snoc2_not_nil.
  assert (In (chosen picks e) (snd e)) as Hin.
  { unfold chosen, selectbox. destruct (picks (fst e)) as [| q]; [lia |].
    cbn [nth]. apply nth_In. lia. }
  destruct (Hne e (or_introl eq_refl) _ Hin) as [Hne1 Hnl].
  apply no_lead_app; assumption.
Qed.

Lemma created_name_is_trimmed_witness :
  "Beta_X_2025-07-23_14-00_Server01" <> ""
  /\ PyStr.strip "Beta_X_2025-07-23_14-00_Server01"
     = "Beta_X_2025-07-23_14-00_Server01".
Proof.
  refine (created_name_is_trimmed
            (mkFrame 2 [[CNaN; CStr "Device Name"]; [CNaN; CStr "Alpha"];
                        [CNaN; CStr "Beta"]; [CNaN; CNaN];
                        [CNaN; CStr "Coolant"]; [CNaN; CStr "X"]])
            [("Device Name", ["Alpha"; "Beta"]); ("Coolant", ["X"])]
            (fun label => if (label =? "Device Name")%string then 2 else 1)
            " 2025-07-23_14-00 " "Server01 " _ _ _).
  - reflexivity.
  - reflexivity.
Defined.

(** ** Rows inside a run *)

Lemma outer_body_cursor df i r1 r2 i1 r1' i2 r2' :
  outer_body df i r1 = Returned (i1, r1') ->
  outer_body df i r2 = Returned (i2, r2') ->
  i1 = i2.
Proof.
  intros H1 H2.
  destruct (outer_body_inv df i r1)
    as [[Ht Hb] | [[Ht [_ [_ Hb]]] | [Ht [c [Hc Hb]]]]];
    rewrite Hb in H1; inversion H1; subst.
  - rewrite (outer_body_other _ _ _ Ht) in H2. inversion H2. reflexivity.
  - rewrite (outer_body_run _ _ _ _ Ht Hc) in H2. inversion H2. reflexivity.
Qed.

(** The rows the outer loop stops on come one after the other: a row
    it stops on later is at or past the row the turn on an earlier one
    moves to. *)
Lemma loop_states_in_line df : forall b rb a ra a' ra',
  loop_state df b rb ->
  loop_state df a ra ->
  a < b ->
  outer_body df a ra = Returned (a', ra') ->
  a' <= b.
Proof.
  induction b as [b IH] using (well_founded_induction lt_wf).
  intros rb a ra a' ra' Hb Ha Hlt Hbody.
  inversion Hb as [| i r b' rb' Hi Hin Hturn]; subst; [lia |].
  destruct (Nat.lt_trichotomy a i) as [Hai | [Hai | Hai]].
  - pose proof (outer_body_advances df i r b rb Hin Hturn).
    assert (a' <= i) by (apply (IH i ltac:(lia) r a ra a' ra'); assumption).
    lia.
  - subst i. rewrite (outer_body_cursor df a ra r a' ra' b rb Hbody Hturn).
    lia.
  - assert (b <= a)
      by (apply (IH a Hlt ra i r b rb); assumption).
    lia.
Qed.

(** X7. The rows between a marker row and the row its run stops on are
    read by the run only: the outer loop does not stop on them, so
    none of them is a marker row, whatever its key cell reads. *)
Theorem rows_inside_run_are_not_markers
    (df : DataFrame) (i c : nat) (cat : string) (i' : nat) (cat' : string) :
  marker_row df i cat ->
  choose_column df i cat = Returned c ->
  i < i' < snd (scan_run df cat c i) ->
  ~ marker_row df i' cat'.
Proof.
  intros [[r Hs] [Hi [Hkey Ht]]] Hc Hin [[r' Hs'] _].
  subst cat.
  pose proof (outer_body_run df i r c Ht Hc) as Hbody.
  pose proof (loop_states_in_line df i' r' i r _ _ Hs' Hs (proj1 Hin) Hbody).
  lia.
Qed.

Lemma rows_inside_run_are_not_markers_witness :
  ~ marker_row
      (mkFrame 3 [[CNaN; CStr "Frame Version"; CStr "Abbreviation"];
                  [CNaN; CStr "Coolant"; CStr "F1"];
                  [CNaN; CStr "Pump"; CStr "F2"];
                  [CNaN; CNaN; CNaN];
                  [CNaN; CNaN; CNaN]])
      2 "Pump".
Proof.
  refine (rows_inside_run_are_not_markers _ 0 2 "Frame Version" 2 "Pump" _ _ _).
  - unfold marker_row.
    split_all; [| unfold nrows; simpl; lia | reflexivity | reflexivity].
    eexists. apply loop_start.
  - reflexivity.
  - split; [lia |].
    match goal with |- _ < ?x => change x with 4 end. lia.
Defined.

(** ** The stop rules *)

(** X8. Every category the parser recognises has one stop rule and one
    only: it is in the first-blank-stop set or in the second-blank-stop
    set, not in both, and it is no name of the skip set.  A category
    reads its values from the abbreviation column or from the key
    column, not both. *)
Theorem category_has_one_stop_rule (cat : string) :
  is_target cat = true ->
  mem cat FIRST_BLANK_STOP = negb (mem cat SECOND_BLANK_STOP)
  /\ mem cat TARGET_WITH_ABBREVIATION = negb (mem cat TARGET_WITHOUT_ABBREVIATION)
  /\ mem cat SKIP = false.
Proof. unfold is_target. intros H. each_member H; split_all; reflexivity. Qed.

Lemma category_has_one_stop_rule_witness :
  mem "Pump" FIRST_BLANK_STOP = negb (mem "Pump" SECOND_BLANK_STOP)
  /\ mem "Pump" TARGET_WITH_ABBREVIATION
     = negb (mem "Pump" TARGET_WITHOUT_ABBREVIATION)
  /\ mem "Pump" SKIP = false.
Proof. apply category_has_one_stop_rule. reflexivity. Defined.

(** ** The exceptions of a call *)

(** X3. A call of [read_legend] raises exactly these exceptions: the
    one of the read of the sheet (that of [pd.read_excel] when it is no
    [PermissionError], that of the handler after a [PermissionError]);
    or, on the frame read, the [ValueError] about the two columns when
    it has fewer than two, or the [ValueError] naming row [i] when the
    outer loop comes to the marker row [i] of a with-abbreviation
    category that has no abbreviation header.  The call always comes to
    a result or an exception. *)
Theorem read_legend_call_raises_iff
    (first fallback : tried DataFrame) (e : exn) :
  (exists r, read_legend_call first fallback = Some r)
  /\ (read_legend_call first fallback = Some (Threw e)
      <-> (first = Threw e /\ forall text, e <> PermissionError text)
          \/ (exists text,
                first = Threw (PermissionError text) /\ fallback = Threw e)
          \/ (exists df,
                (first = Gave df
                 \/ exists text,
                      first = Threw (PermissionError text)
                      /\ fallback = Gave df)
                /\ ((ncols df < 2 /\ e = ValueError msg_two_columns)
                    \/ (2 <= ncols df
                        /\ exists i cat,
                             marker_row df i cat
                             /\ mem cat TARGET_WITH_ABBREVIATION = true
                             /\ abbrev_index (row_values df i) = None
                             /\ e = ValueError (msg_no_abbreviation i))))).
Proof.
  assert (forall df,
            (exists r,
               match read_legend df with
               | None => None
               | Some (Returned m) => Some (Gave m)
               | Some (Raised msg) => Some (Threw (ValueError msg))
               end = Some r)
            /\ (match read_legend df with
                | None => None
                | Some (Returned m) => Some (Gave m)
                | Some (Raised msg) => Some (Threw (ValueError msg))
                end = Some (Threw e)
                <-> (ncols df < 2 /\ e = ValueError msg_two_columns)
                    \/ (2 <= ncols df
                        /\ exists i cat,
                             marker_row df i cat
                             /\ mem cat TARGET_WITH_ABBREVIATION = true
                             /\ abbrev_index (row_values df i) = None
                             /\ e = ValueError (msg_no_abbreviation i))))
    as Hparse.
  { intros df. split.
    - assert (exists o, read_legend df = Some o) as [o Ho].
      { unfold read_legend, read_legend_fuel.
        destruct (ncols df <? 2); [eexists; reflexivity |].
        apply outer_loop_total. lia. }
      rewrite Ho. destruct o; eexists; reflexivity.
    - split.
      + destruct (read_legend df) as [[m | msg] |] eqn:Hr; try discriminate.
        intros H. inversion H; subst e.
        apply read_legend_raises_iff in Hr.
        destruct Hr as [[Hc ->] | [Hc [i [cat [Hm [Hw [Ha ->]]]]]]].
        * left. split; [exact Hc | reflexivity].
        * right. split; [exact Hc |]. exists i, cat. split_all; auto.
      + intros [[Hc ->] | [Hc [i [cat [Hm [Hw [Ha ->]]]]]]].
        * rewrite (proj2 (read_legend_raises_iff df msg_two_columns));
            [reflexivity |].
          left. split; [exact Hc | reflexivity].
        * rewrite (proj2 (read_legend_raises_iff df (msg_no_abbreviation i)));
            [reflexivity |].
          right. split; [exact Hc |]. exists i, cat. split_all; auto. }
  unfold read_legend_call, read_sheet.
  destruct first as [df | [text | msg | text]].
  - (* the first read gives the frame *)
    destruct (Hparse df) as [Htot Hiff]. split; [exact Htot |].
    rewrite Hiff. split.
    + intros H. right. right. exists df. split; [left; reflexivity | exact H].
    + intros [[H _] | [[t [H _]] | [df' [[H | [t [H _]]] Hcase]]]];
        try discriminate H.
      inversion H; subst df'. exact Hcase.
  - (* PermissionError: the handler decides *)
    destruct fallback as [df | e'].
    + destruct (Hparse df) as [Htot Hiff]. split; [exact Htot |].
      rewrite Hiff. split.
      * intros H. right. right. exists df. split; [| exact H].
        right. exists text. split; reflexivity.
      * intros [[H Hnp] | [[t [_ H]] | [df' [[H | [t [_ H]]] Hcase]]]];
          try discriminate H.
        -- inversion H; subst e. contradiction (Hnp text). reflexivity.
        -- inversion H; subst df'. exact Hcase.
    + split; [eexists; reflexivity |]. split.
      * intros H. inversion H; subst e'. right. left.
        exists text. split; reflexivity.
      * intros [[H Hnp] | [[t [_ H]] | [df' [[H | [t [_ H]]] _]]]];
          try discriminate H.
        -- inversion H; subst e. contradiction (Hnp text). reflexivity.
        -- inversion H. reflexivity.
  - (* a ValueError of the first read goes through *)
    split; [eexists; reflexivity |]. split.
    + intros H. inversion H; subst e. left. split; [reflexivity | discriminate].
    + intros [[H _] | [[t [H _]] | [df' [[H | [t [H _]]] _]]]];
        try discriminate H.
      inversion H. reflexivity.
  - (* so does any other exception *)
    split; [eexists; reflexivity |]. split.
    + intros H. inversion H; subst e. left. split; [reflexivity | discriminate].
    + intros [[H _] | [[t [H _]] | [df' [[H | [t [H _]]] _]]]];
        try discriminate H.
      inversion H. reflexivity.
Qed.

Lemma read_legend_call_raises_iff_witness :
  read_legend_call
    (Threw (PermissionError "legend_prototype.xlsx"))
    (Gave (mkFrame 3 [[CNaN; CStr "CPU model"; CNaN];
                      [CNaN; CStr "Core Version"; CStr "Short"];
                      [CNaN; CStr "Core one"; CStr "C1"]]))
  = Some (Threw (ValueError "No 'Abbreviation' column found in row 1.")).
Proof.
  apply (proj2 (proj2 (read_legend_call_raises_iff _ _ _))).
  right. right.
  exists (mkFrame 3 [[CNaN; CStr "CPU model"; CNaN];
                     [CNaN; CStr "Core Version"; CStr "Short"];
                     [CNaN; CStr "Core one"; CStr "C1"]]).
  split.
  - right. exists "legend_prototype.xlsx". split; reflexivity.
  - right. split; [simpl; lia |].
    exists 1, "Core Version". split_all; try reflexivity.
    unfold marker_row.
    split_all; [| unfold nrows; simpl; lia | reflexivity | reflexivity].
    eexists.
    eapply (loop_turn _ 0); [apply loop_start | unfold nrows; simpl; lia |].
    reflexivity.
Defined.
